(** * runcached (Go): a shallow embedding of [src/go/runcached.go]

    The program memoises the output and the exit code of a command in files
    of the temporary directory, keyed by the MD5 digest of the command line,
    and serialises concurrent invocations of one command with a PID file.

    Go strings are byte strings: they are modelled as [string] (a list of
    8-bit [ascii]).  Go's [int] is modelled as [Z]; where the source parses
    or prints an [int] the 64-bit range is written out.  A [float64] is a
    value of the Standard Library's specification of IEEE 754 binary64, and
    a [time.Duration] a [Z] kept within the range of an [int64]. *)

From Stdlib Require Import ZArith QArith Lia Ascii String List Bool SpecFloat.
From stdpp Require Import gmap strings list fin_maps.

Local Open Scope Z_scope.

(** ** Bytes and strings *)

Module Str.

Definition byte (c : ascii) : Z := Z.of_N (N_of_ascii c).
Definition chr (b : Z) : ascii := ascii_of_N (Z.to_N (b mod 256)).

Fixpoint bytes (s : string) : list Z :=
  match s with
  | EmptyString => []
  | String c s' => byte c :: bytes s'
  end.

Fixpoint of_bytes (l : list Z) : string :=
  match l with
  | [] => EmptyString
  | b :: l' => String (chr b) (of_bytes l')
  end.

Definition len (s : string) : Z := Z.of_nat (String.length s).

Fixpoint last (s : string) : option ascii :=
  match s with
  | EmptyString => None
  | String c EmptyString => Some c
  | String _ s' => last s'
  end.

(** [s[1 : len(s)-1]] for a string of at least two bytes. *)
Fixpoint init (s : string) : string :=
  match s with
  | EmptyString => EmptyString
  | String _ EmptyString => EmptyString
  | String c s' => String c (init s')
  end.

Definition quote : ascii := "034"%char.
Definition apostrophe : ascii := "039"%char.
Definition backslash : ascii := "092"%char.
Definition newline : ascii := "010"%char.

(** A string literal wrapped in double quotes. *)
Definition quoted (s : string) : string :=
  String quote (s +:+ String quote EmptyString).

Definition line (s : string) : string := s +:+ String newline EmptyString.

End Str.

(** ** The parts of Go's library the program calls *)

(** [strings.Join(elems, sep)]. *)
Fixpoint strings_Join (elems : list string) (sep : string) : string :=
  match elems with
  | [] => EmptyString
  | [e] => e
  | e :: rest => e +:+ sep +:+ strings_Join rest sep
  end.

(** [strings.Replace(s, old, new, -1)] and [strings.ReplaceAll(s, old, new)]
    for a non-empty [old]: the non-overlapping occurrences of [old], leftmost
    first.  [skip] counts the bytes of an occurrence still to be passed over.
    The source only replaces one-byte patterns; with an empty [old] (where Go
    inserts [new] around every rune) this model returns [s]. *)
Fixpoint replace_from (skip : nat) (s old new : string) : string :=
  match s with
  | EmptyString => EmptyString
  | String c s' =>
      match skip with
      | S k => replace_from k s' old new
      | O =>
          if String.prefix old s
          then new +:+ replace_from (String.length old - 1) s' old new
          else String c (replace_from 0 s' old new)
      end
  end.

Definition strings_ReplaceAll (s old new : string) : string :=
  match old with
  | EmptyString => s
  | _ => replace_from 0 s old new
  end.

(** *** UTF-8, as [unicode/utf8] decodes and encodes it

    [for _, r := range input] walks the runes of [input]; an ill-formed
    sequence yields U+FFFD and advances by one byte. *)
Module utf8.

Definition RuneError : Z := 0xFFFD.
Definition MaxRune : Z := 0x10FFFF.

Definition between (lo b hi : Z) : bool := (lo <=? b) && (b <=? hi).
Definition cont (b : Z) : bool := between 0x80 b 0xBF.
Definition low6 (b : Z) : Z := Z.land b 0x3F.

(** [utf8.DecodeRuneInString] on the bytes of a non-empty string: the rune
    and its width. *)
Definition DecodeRune (p : list Z) : Z * nat :=
  match p with
  | [] => (RuneError, 0%nat)
  | b0 :: rest =>
      if b0 <? 0x80 then (b0, 1%nat)
      else if between 0xC2 b0 0xDF then
        match rest with
        | b1 :: _ =>
            if cont b1
            then (Z.lor (Z.shiftl (Z.land b0 0x1F) 6) (low6 b1), 2%nat)
            else (RuneError, 1%nat)
        | _ => (RuneError, 1%nat)
        end
      else if between 0xE0 b0 0xEF then
        let lo := if b0 =? 0xE0 then 0xA0 else 0x80 in
        let hi := if b0 =? 0xED then 0x9F else 0xBF in
        match rest with
        | b1 :: b2 :: _ =>
            if between lo b1 hi && cont b2
            then (Z.lor (Z.shiftl (Z.land b0 0x0F) 12)
                    (Z.lor (Z.shiftl (low6 b1) 6) (low6 b2)), 3%nat)
            else (RuneError, 1%nat)
        | _ => (RuneError, 1%nat)
        end
      else if between 0xF0 b0 0xF4 then
        let lo := if b0 =? 0xF0 then 0x90 else 0x80 in
        let hi := if b0 =? 0xF4 then 0x8F else 0xBF in
        match rest with
        | b1 :: b2 :: b3 :: _ =>
            if between lo b1 hi && cont b2 && cont b3
            then (Z.lor (Z.shiftl (Z.land b0 0x07) 18)
                    (Z.lor (Z.shiftl (low6 b1) 12)
                       (Z.lor (Z.shiftl (low6 b2) 6) (low6 b3))), 4%nat)
            else (RuneError, 1%nat)
        | _ => (RuneError, 1%nat)
        end
      else (RuneError, 1%nat)
  end.

(** The runes of a string with the bytes each one was read from. *)
Fixpoint chunks_fuel (fuel : nat) (p : list Z) : list (Z * list Z) :=
  match fuel, p with
  | O, _ => []
  | _, [] => []
  | S f, _ =>
      let '(r, n) := DecodeRune p in
      (r, firstn n p) :: chunks_fuel f (skipn n p)
  end.

Definition chunks (s : string) : list (Z * list Z) :=
  chunks_fuel (String.length s) (Str.bytes s).

Definition runes (s : string) : list Z := map fst (chunks s).

(** [utf8.AppendRune]: the encoding of a rune; a surrogate or a value out
    of range is encoded as U+FFFD. *)
Definition EncodeRune (r : Z) : list Z :=
  let tail6 (n : Z) := Z.lor 0x80 (low6 (Z.shiftr r n)) in
  if between 0 r 0x7F then [r]
  else if between 0x80 r 0x7FF then [Z.lor 0xC0 (Z.shiftr r 6); tail6 0]
  else if (r <? 0) || (MaxRune <? r) || between 0xD800 r 0xDFFF
  then [0xEF; 0xBF; 0xBD]
  else if r <=? 0xFFFF
  then [Z.lor 0xE0 (Z.shiftr r 12); tail6 6; tail6 0]
  else [Z.lor 0xF0 (Z.shiftr r 18); tail6 12; tail6 6; tail6 0].

End utf8.

(** [unicode.IsSpace]: the Latin-1 spaces and the White_Space code points
    above them. *)
Definition unicode_IsSpace (r : Z) : bool :=
  utf8.between 0x09 r 0x0D || (r =? 0x20) || (r =? 0x85) || (r =? 0xA0)
  || (r =? 0x1680) || utf8.between 0x2000 r 0x200A
  || (r =? 0x2028) || (r =? 0x2029) || (r =? 0x202F) || (r =? 0x205F)
  || (r =? 0x3000).

(** [WriteRune] of a [strings.Builder]. *)
Definition WriteRune (token : string) (r : Z) : string :=
  token +:+ Str.of_bytes (utf8.EncodeRune r).

(** [strings.TrimSpace]: the string without its leading and trailing
    white-space runes. *)
Fixpoint drop_spaces (l : list (Z * list Z)) : list (Z * list Z) :=
  match l with
  | (r, _) :: l' => if unicode_IsSpace r then drop_spaces l' else l
  | [] => []
  end.

Definition strings_TrimSpace (s : string) : string :=
  let inner := rev (drop_spaces (rev (drop_spaces (utf8.chunks s)))) in
  Str.of_bytes (concat (map snd inner)).

(** ** Building the shell command line *)

Record ParseState := mkParse {
  result : list string;
  token : string;
  inQuotes : bool;
  quoteChar : Z
}.

Definition rune_quote : Z := 34.
Definition rune_apostrophe : Z := 39.

(** One turn of the loop of [CustomParse]: the [switch] on the rune [r]. *)
Definition parse_rune (st : ParseState) (r : Z) : ParseState :=
  if inQuotes st then
    if r =? quoteChar st
    then mkParse (result st) (WriteRune (token st) r) false (quoteChar st)
    else mkParse (result st) (WriteRune (token st) r) true (quoteChar st)
  else if (r =? rune_quote) || (r =? rune_apostrophe)
  then mkParse (result st) (WriteRune (token st) r) true r
  else if unicode_IsSpace r then
    if 0 <? Str.len (token st)
    then mkParse (result st ++ [token st]) EmptyString false (quoteChar st)
    else st
  else mkParse (result st) (WriteRune (token st) r) false (quoteChar st).

(** [fmt.Errorf("unclosed quote: %q", quoteChar)]: [%q] prints the rune as a
    Go character literal. *)
Definition unclosed_quote (q : Z) : string :=
  "unclosed quote: " +:+
  (if q =? rune_apostrophe
   then String Str.apostrophe
          (String Str.backslash (String Str.apostrophe (String Str.apostrophe EmptyString)))
   else String Str.apostrophe (Str.of_bytes (utf8.EncodeRune q)) +:+ String Str.apostrophe EmptyString).

(** [CustomParse]: the tokens of [input], split at white space outside
    quotes, the quotes kept; an error when a quote is left open. *)
Definition CustomParse (input : string) : list string + string :=
  let st := fold_left parse_rune (utf8.runes input) (mkParse [] EmptyString false 0) in
  let result := if 0 <? Str.len (token st) then result st ++ [token st] else result st in
  if inQuotes st then inr (unclosed_quote (quoteChar st)) else inl result.

(** [ConstructBashCommand]: [inr] is the message of [log.Fatal], which ends
    the process. *)
Definition ConstructBashCommand (args : list string) : string + string :=
  match CustomParse (strings_Join args " ") with
  | inr err => inr ("Error parsing arguments:" +:+ err)
  | inl escapedArgs =>
      let argsStr := strings_Join escapedArgs " " in
      inl (strings_ReplaceAll argsStr (String Str.quote EmptyString)
             (String Str.backslash (String Str.quote EmptyString)))
  end.

(** [PreprocessArguments], applied by [main] to the arguments of the
    process before the flags are parsed. *)
Definition preprocess (arg : string) : string :=
  let arg := strings_ReplaceAll arg (String Str.backslash EmptyString)
               (String Str.backslash (String Str.backslash EmptyString)) in
  let arg := strings_ReplaceAll arg (String Str.quote EmptyString)
               (String Str.backslash (String Str.quote EmptyString)) in
  match arg with
  | String c rest =>
      if (2 <=? Str.len arg) && Ascii.eqb c Str.apostrophe
         && match Str.last arg with Some l => Ascii.eqb l Str.apostrophe | None => false end
      then String Str.backslash (String Str.apostrophe (Str.init rest))
           +:+ String Str.backslash (String Str.apostrophe EmptyString)
      else arg
  | EmptyString => arg
  end.

Definition PreprocessArguments (args : list string) : list string :=
  map preprocess args.

(** ** Fingerprinting *)

(** [crypto/md5], after RFC 1321, on 32-bit words held in [Z]. *)
Module md5.

Definition add32 (x y : Z) : Z := (x + y) mod 2^32.
Definition not32 (x : Z) : Z := Z.lxor x 0xFFFFFFFF.
Definition rotl32 (x n : Z) : Z :=
  Z.lor (Z.shiftl x n mod 2^32) (Z.shiftr x (32 - n)).

Definition shifts : list Z :=
  [7; 12; 17; 22; 7; 12; 17; 22; 7; 12; 17; 22; 7; 12; 17; 22;
   5; 9; 14; 20; 5; 9; 14; 20; 5; 9; 14; 20; 5; 9; 14; 20;
   4; 11; 16; 23; 4; 11; 16; 23; 4; 11; 16; 23; 4; 11; 16; 23;
   6; 10; 15; 21; 6; 10; 15; 21; 6; 10; 15; 21; 6; 10; 15; 21].

(** [floor (2^32 * abs (sin (i + 1)))] for [i] from 0 to 63. *)
Definition sines : list Z :=
  [0xd76aa478; 0xe8c7b756; 0x242070db; 0xc1bdceee;
   0xf57c0faf; 0x4787c62a; 0xa8304613; 0xfd469501;
   0x698098d8; 0x8b44f7af; 0xffff5bb1; 0x895cd7be;
   0x6b901122; 0xfd987193; 0xa679438e; 0x49b40821;
   0xf61e2562; 0xc040b340; 0x265e5a51; 0xe9b6c7aa;
   0xd62f105d; 0x02441453; 0xd8a1e681; 0xe7d3fbc8;
   0x21e1cde6; 0xc33707d6; 0xf4d50d87; 0x455a14ed;
   0xa9e3e905; 0xfcefa3f8; 0x676f02d9; 0x8d2a4c8a;
   0xfffa3942; 0x8771f681; 0x6d9d6122; 0xfde5380c;
   0xa4beea44; 0x4bdecfa9; 0xf6bb4b60; 0xbebfbc70;
   0x289b7ec6; 0xeaa127fa; 0xd4ef3085; 0x04881d05;
   0xd9d4d039; 0xe6db99e5; 0x1fa27cf8; 0xc4ac5665;
   0xf4292244; 0x432aff97; 0xab9423a7; 0xfc93a039;
   0x655b59c3; 0x8f0ccc92; 0xffeff47d; 0x85845dd1;
   0x6fa87e4f; 0xfe2ce6e0; 0xa3014314; 0x4e0811a1;
   0xf7537e82; 0xbd3af235; 0x2ad7d2bb; 0xeb86d391].

Definition State : Type := Z * Z * Z * Z.

Definition init : State := (0x67452301, 0xefcdab89, 0x98badcfe, 0x10325476).

(** The bytes of a word, least significant first. *)
Definition le_bytes (n : nat) (x : Z) : list Z :=
  map (fun k => Z.shiftr x (8 * Z.of_nat k) mod 256) (seq 0 n).

Fixpoint words (p : list Z) : list Z :=
  match p with
  | b0 :: b1 :: b2 :: b3 :: rest =>
      (b0 + Z.shiftl b1 8 + Z.shiftl b2 16 + Z.shiftl b3 24) :: words rest
  | _ => []
  end.

(** The message, a byte 0x80, zeros up to 56 modulo 64, and the length in
    bits on 8 bytes. *)
Definition pad (msg : list Z) : list Z :=
  let n := Z.of_nat (length msg) in
  msg ++ [0x80] ++ repeat 0 (Z.to_nat ((55 - n) mod 64))
      ++ le_bytes 8 ((8 * n) mod 2^64).

Definition step (M : list Z) (st : State) (i : nat) : State :=
  let '(a, b, c, d) := st in
  let j := Z.of_nat i in
  let '(f, g) :=
    if j <? 16 then (Z.lor (Z.land b c) (Z.land (not32 b) d), j)
    else if j <? 32 then (Z.lor (Z.land d b) (Z.land (not32 d) c), (5 * j + 1) mod 16)
    else if j <? 48 then (Z.lxor b (Z.lxor c d), (3 * j + 5) mod 16)
    else (Z.lxor c (Z.lor b (not32 d)), (7 * j) mod 16) in
  let f := add32 (add32 (add32 f a) (nth i sines 0)) (nth (Z.to_nat g) M 0) in
  (d, add32 b (rotl32 f (nth i shifts 0)), b, c).

Definition block (st : State) (M : list Z) : State :=
  let '(a0, b0, c0, d0) := st in
  let '(a, b, c, d) := fold_left (step M) (seq 0 64) st in
  (add32 a0 a, add32 b0 b, add32 c0 c, add32 d0 d).

Fixpoint blocks (n : nat) (st : State) (ws : list Z) : State :=
  match n with
  | O => st
  | S n' => blocks n' (block st (firstn 16 ws)) (skipn 16 ws)
  end.

(** [md5.Sum]: the 16 bytes of the digest. *)
Definition Sum (msg : list Z) : list Z :=
  let ws := words (pad msg) in
  let '(a, b, c, d) := blocks (length ws / 16) init ws in
  le_bytes 4 a ++ le_bytes 4 b ++ le_bytes 4 c ++ le_bytes 4 d.

End md5.

(** [encoding/hex]. *)
Module hex.

Definition digit (n : Z) : ascii :=
  nth (Z.to_nat n) (list_ascii_of_string "0123456789abcdef") "0"%char.

Fixpoint EncodeToString (src : list Z) : string :=
  match src with
  | [] => EmptyString
  | b :: rest => String (digit (b / 16)) (String (digit (b mod 16)) (EncodeToString rest))
  end.

End hex.

(** [GenerateCommandHash]: the MD5 digest, in hexadecimal, of the arguments
    joined by one space. *)
Definition GenerateCommandHash (command : list string) : string :=
  hex.EncodeToString (md5.Sum (Str.bytes (strings_Join command " "))).

(** ** Integers as decimal text *)

Module strconv.

Inductive NumError := ErrSyntax | ErrRange.

Definition MaxInt : Z := 2^63 - 1.
Definition MinInt : Z := - 2^63.

Definition is_digit (c : ascii) : bool := utf8.between 48 (Str.byte c) 57.

(** The value of a string of decimal digits read after [acc]. *)
Fixpoint digits_value (s : string) (acc : Z) : option Z :=
  match s with
  | EmptyString => Some acc
  | String c s' =>
      if is_digit c then digits_value s' (acc * 10 + (Str.byte c - 48)) else None
  end.

(** [strconv.Atoi]: an optional sign and at least one digit; a syntax
    error gives 0, a value out of range the nearest [int]. *)
Definition Atoi (s : string) : Z * option NumError :=
  let '(neg, body) :=
    match s with
    | String c rest =>
        if Ascii.eqb c "-" then (true, rest)
        else if Ascii.eqb c "+" then (false, rest)
        else (false, s)
    | EmptyString => (false, s)
    end in
  match body with
  | EmptyString => (0, Some ErrSyntax)
  | _ =>
      match digits_value body 0 with
      | None => (0, Some ErrSyntax)
      | Some un =>
          if neg then
            if - MinInt <? un then (MinInt, Some ErrRange) else (- un, None)
          else
            if MaxInt <? un then (MaxInt, Some ErrRange) else (un, None)
      end
  end.

(** The decimal digits of [u], written in front of [acc], last digit
    first; 20 turns are enough for a 64-bit value. *)
Fixpoint digits (fuel : nat) (u : Z) (acc : string) : string :=
  match fuel with
  | O => acc
  | S f =>
      let acc' := String (Str.chr (48 + u mod 10)) acc in
      if u <? 10 then acc' else digits f (u / 10) acc'
  end.

(** [strconv.Itoa]. *)
Definition Itoa (i : Z) : string :=
  if i <? 0 then String "-" (digits 20 (- i) EmptyString)
  else digits 20 i EmptyString.

End strconv.

(** ** The world outside the process *)

(** How a child process ended. *)
Inductive ProcessState := Exited (code : Z) | Signaled (sig : Z).

(** [ExitCode()] of a process state: -1 for a process ended by a signal. *)
Definition ExitCode (st : ProcessState) : Z :=
  match st with Exited c => c | Signaled _ => -1 end.

Inductive WaitResult :=
  | WaitOk                            (* [err == nil]: the child exited with 0 *)
  | ExitError (st : ProcessState)     (* [*exec.ExitError] *)
  | WaitFailed.                       (* any other error *)

(** What a child process does once started: the bytes the copy loop reads
    from its standard output, the bytes it writes to its standard error, the
    time it takes, what [cmd.Wait] reports, and the error [io.Copy] ends
    with, if any.  [cmd.Wait] closes the reading end of the pipe as soon as
    the child is gone, whether or not the copy loop has read everything: the
    loop then stops with an error, and [piped] is what it had read. *)
Record Run := mkRun {
  piped : string;
  diverted : string;
  took : Z;
  waited : WaitResult;
  copyError : option string
}.

(** The files of the machine, the processes alive on it, the clock, and what
    this process has written to its own standard streams. *)

Record File := mkFile {
  data : string;
  modTime : Z          (* nanoseconds, as [time.Time] counts them *)
}.

Record World := mkWorld {
  files : gmap string File;
  denied : gset string;       (* paths every system call on which fails *)
  alive : gset Z;             (* ids that signal 0 does not answer with ESRCH *)
  clock : Z;                  (* [time.Now()], nanoseconds *)
  pid : Z;                    (* [os.Getpid()] *)
  tmpDir : string;            (* [os.TempDir()] *)
  seed : Z;                   (* the next draw of [math/rand] *)
  verbose : bool;             (* the package variable set by [-v] *)
  stdout : string;
  stderr : string;
  spawned : list (list string * option Run)   (* every [cmd.Start]: the arguments, the child *)
}.

Definition with_disk (fs : gmap string File) (w : World) : World :=
  mkWorld fs (denied w) (alive w) (clock w) (pid w) (tmpDir w) (seed w)
    (verbose w) (stdout w) (stderr w) (spawned w).

Definition with_clock (t : Z) (w : World) : World :=
  mkWorld (files w) (denied w) (alive w) t (pid w) (tmpDir w) (seed w)
    (verbose w) (stdout w) (stderr w) (spawned w).

Definition with_stdout (s : string) (w : World) : World :=
  mkWorld (files w) (denied w) (alive w) (clock w) (pid w) (tmpDir w) (seed w)
    (verbose w) s (stderr w) (spawned w).

Definition with_stderr (s : string) (w : World) : World :=
  mkWorld (files w) (denied w) (alive w) (clock w) (pid w) (tmpDir w) (seed w)
    (verbose w) (stdout w) s (spawned w).

Definition with_spawned (l : list (list string * option Run)) (w : World) : World :=
  mkWorld (files w) (denied w) (alive w) (clock w) (pid w) (tmpDir w) (seed w)
    (verbose w) (stdout w) (stderr w) l.

(** The rest of the machine: what becomes of a child this process starts
    ([None] when [cmd.Start] fails), and what the other processes do to the
    files and the process table while this one sleeps. *)
Record System := mkSystem {
  exec : list string -> World -> option Run;
  others : World -> World
}.

Module syscall.

Inductive Errno := ESRCH | EPERM.

(** [syscall.Kill(pid, 0)]: the null signal, which only asks whether the
    process can be signalled. *)
Definition Kill0 (pid : Z) (w : World) : option Errno :=
  if bool_decide (pid ∈ alive w) then None else Some ESRCH.

End syscall.

Module os.

Inductive Errno := ENOENT | EACCES.

(** What [process.Signal] returns on Unix.  When [syscall.Kill] fails with
    [ESRCH] the package returns its own error value [os.ErrProcessDone] in
    its place; any other error number is returned as it is. *)
Inductive SignalError := ErrProcessDone | KillError (e : syscall.Errno).

Definition Signal0 (pid : Z) (w : World) : option SignalError :=
  match syscall.Kill0 pid w with
  | None => None
  | Some syscall.ESRCH => Some ErrProcessDone
  | Some e => Some (KillError e)
  end.

Definition text (op path : string) (e : Errno) : string :=
  op +:+ " " +:+ path +:+ ": " +:+
  match e with
  | ENOENT => "no such file or directory"
  | EACCES => "permission denied"
  end.

Definition IsNotExist {A} (r : Errno + A) : bool :=
  match r with inl ENOENT => true | _ => false end.

Definition Stat (path : string) (w : World) : Errno + File :=
  if bool_decide (path ∈ denied w) then inl EACCES
  else match files w !! path with
       | Some f => inr f
       | None => inl ENOENT
       end.

Definition ReadFile (path : string) (w : World) : Errno + string :=
  match Stat path w with
  | inl e => inl e
  | inr f => inr (data f)
  end.

(** [os.Create]: the file is created or truncated. *)
Definition Create (path : string) (w : World) : option Errno * World :=
  if bool_decide (path ∈ denied w) then (Some EACCES, w)
  else (None, with_disk (<[path := mkFile EmptyString (clock w)]> (files w)) w).

(** [WriteString] on a file just created; nothing is written for an empty
    string. *)
Definition WriteString (path s : string) (w : World) : World :=
  match s with
  | EmptyString => w
  | _ => with_disk (alter (fun f => mkFile (data f +:+ s) (clock w)) path (files w)) w
  end.

(** [os.Remove], its error dropped as the source drops it. *)
Definition Remove (path : string) (w : World) : World :=
  if bool_decide (path ∈ denied w) then w
  else with_disk (delete path (files w)) w.

Definition print (s : string) (w : World) : World :=
  with_stdout (stdout w +:+ s) w.

Definition eprint (s : string) (w : World) : World :=
  with_stderr (stderr w +:+ s) w.

End os.

(** [filepath.Join(dir, name)] for a clean [dir]. *)
Definition filepath_Join (dir name : string) : string :=
  dir +:+ "/" +:+ name.

Definition Second : Z := 1000000000.

(** ** Floating point and durations *)

(** Go's [float64] is IEEE 754 binary64; its operations round to nearest,
    ties to even. *)
Definition float64 : Type := spec_float.

(** [float64(i)] for an integer [i]. *)
Definition float64_of_int (i : Z) : float64 := binary_normalize 53 1024 i 0 false.

Definition float64_add (x y : float64) : float64 := SFadd 53 1024 x y.
Definition float64_div (x y : float64) : float64 := SFdiv 53 1024 x y.

(** [x <= y]: false when one of the two is not a number. *)
Definition float64_le (x y : float64) : bool := SFleb x y.

(** The number a [float64] stands for, when it stands for one. *)
Definition float64_value (x : float64) : option Q :=
  match x with
  | S754_zero _ => Some 0%Q
  | S754_finite s m e =>
      Some ((if s then - inject_Z (Z.pos m) else inject_Z (Z.pos m)) * Qpower 2 e)%Q
  | _ => None
  end.

Coercion float64_of_int : Z >-> float64.

(** A [time.Duration] is a number of nanoseconds in an [int64]. *)
Definition minDuration : Z := - 2^63.
Definition maxDuration : Z := 2^63 - 1.

(** [t.Sub(u)] for two wall-clock times: the difference, or the nearest
    duration when the difference does not fit. *)
Definition time_Sub (t u : Z) : Z :=
  let d := t - u in
  if d <? minDuration then minDuration
  else if maxDuration <? d then maxDuration
  else d.

(** [d.Seconds()]: the whole seconds and the fraction are converted apart
    and added. *)
Definition Seconds (d : Z) : float64 :=
  let sec := Z.quot d Second in
  let nsec := Z.rem d Second in
  float64_add (float64_of_int sec)
              (float64_div (float64_of_int nsec) (float64_of_int 1000000000)).

(** ** The cache *)

Definition defaultCacheTimeoutSec : float64 := float64_of_int 20.
Definition maxWaitPrevSec : Z := 5.
Definition minRandSec : Z := 0.
Definition maxRandSec : Z := 0.

Record CommandCache := mkCommandCache {
  Command : list string;
  CacheTimeout : float64;
  CacheDir : string;
  CommandHash : string;
  OutputCache : string;
  ExitFile : string;
  CmdFile : string
}.

Definition getCacheDir (w : World) : string := tmpDir w.

Definition NewCommandCache (command : list string) (cacheTimeout : float64) (w : World)
  : CommandCache :=
  let cacheDir := getCacheDir w in
  let commandHash := GenerateCommandHash command in
  mkCommandCache command cacheTimeout cacheDir commandHash
    (filepath_Join cacheDir (commandHash +:+ ".data"))
    (filepath_Join cacheDir (commandHash +:+ ".exit"))
    (filepath_Join cacheDir (commandHash +:+ ".cmd")).

(** [time.Since(t)] for a time without a monotonic reading, as the
    modification time of a file is. *)
Definition time_Since (t : Z) (w : World) : Z := time_Sub (clock w) t.

(** [time.Since(t).Seconds()]. *)
Definition seconds_since (t : Z) (w : World) : float64 :=
  Seconds (time_Since t w).

(** [IsValid]. *)
Definition IsValid (cc : CommandCache) (w : World) : bool :=
  match os.Stat (OutputCache cc) w with
  | inl _ => false
  | inr info => float64_le (seconds_since (modTime info) w) (CacheTimeout cc)
  end.

(** [Invalidate]. *)
Definition Invalidate (cc : CommandCache) (w : World) : World :=
  os.Remove (OutputCache cc) w.

(** ** The program *)

(** A function of the program either returns to its caller or ends the
    process ([os.Exit], reached through [log.Fatal]); deferred calls run in
    the first case only. *)
Inductive Outcome (A : Type) :=
  | Returns (a : A) (w : World)
  | Exits (code : Z) (w : World).
Arguments Returns {A} a w.
Arguments Exits {A} code w.

Definition world_of {A} (o : Outcome A) : World :=
  match o with Returns _ w => w | Exits _ w => w end.

(** [defer f()] around a body. *)
Definition defer {A} (f : World -> World) (body : Outcome A) : Outcome A :=
  match body with
  | Returns a w => Returns a (f w)
  | Exits code w => Exits code w
  end.

(** [log.Fatal]: the message on standard error (the date and time that
    [log] puts in front are left out), then [os.Exit(1)]. *)
Definition log_Fatal {A} (msg : string) (w : World) : Outcome A :=
  Exits 1 (os.eprint (Str.line msg) w).

(** The end of the goroutine that copies the pipe: an error of [io.Copy] is
    reported on standard output. *)
Definition report_copy (r : Run) (w : World) : World :=
  match copyError r with
  | Some e => os.print (Str.line ("Error copying to writers: " +:+ e)) w
  | None => w
  end.

Section Program.

Context (sys : System).

(** [time.Sleep(d)]: the clock moves on and the other processes act. *)
Definition time_Sleep (d : Z) (w : World) : World :=
  let w' := others sys w in
  mkWorld (files w') (denied w') (alive w') (clock w + d) (pid w) (tmpDir w)
    (seed w) (verbose w) (stdout w) (stderr w) (spawned w).

(** [ExecuteCommand].  The pipe is taken to be created without error, and
    writes to [os.Stdout] and to a file that is open to succeed.  The
    goroutine that copies the pipe runs beside [cmd.Wait]; what the race
    between the two leaves is in the [Run]: the bytes the copy loop has read,
    which go to [os.Stdout] and to the cache file through one
    [io.MultiWriter] (and to a buffer nothing reads), and the error the loop
    stops with, which the goroutine reports on standard output.  Then the
    result of [Wait] is looked at. *)
Definition ExecuteCommand (command : list string) (cache : CommandCache) (w : World)
  : Outcome Z :=
  match ConstructBashCommand command with
  | inr msg => log_Fatal msg w
  | inl script =>
      let command := ["bash"; "-i"; "-c"; script] in
      match os.Create (OutputCache cache) w with
      | (Some e, w) =>
          Returns 1 (os.eprint (Str.line ("Failed to create cache file: "
                                          +:+ os.text "open" (OutputCache cache) e)) w)
      | (None, w) =>
          let child := exec sys command w in
          let w := with_spawned (spawned w ++ [(command, child)]) w in
          match child with
          | None =>
              Returns 1 (os.eprint (Str.line ("Failed to start command: exec: "
                           +:+ Str.quoted "bash"
                           +:+ ": executable file not found in $PATH")) w)
          | Some r =>
              let w := with_clock (clock w + took r) w in
              let w := os.eprint (diverted r) w in                 (* cmd.Stderr = os.Stderr *)
              let w := os.print (piped r) w in                      (* io.Copy(multiWriter, ...) *)
              let w := os.WriteString (OutputCache cache) (piped r) w in
              let w := report_copy r w in
              match waited r with
              | ExitError st =>
                  match os.Create (ExitFile cache) w with
                  | (Some e, w) =>
                      Returns 1 (os.eprint (Str.line ("Failed to create exit file: "
                                              +:+ os.text "open" (ExitFile cache) e)) w)
                  | (None, w) =>
                      Returns (ExitCode st)
                        (os.WriteString (ExitFile cache) (strconv.Itoa (ExitCode st)) w)
                  end
              | WaitFailed => Returns 1 w
              | WaitOk => Returns 0 w
              end
          end
      end
  end.

(** [getPidFromFile]. *)
Definition getPidFromFile (fileName : string) (w : World) : Z :=
  match os.ReadFile fileName w with
  | inl _ => -1
  | inr data =>
      match strconv.Atoi (strings_TrimSpace data) with
      | (_, Some _) => -1
      | (pid, None) => pid
      end
  end.

(** [errors.Is(err, syscall.ESRCH)] for an error of [process.Signal]:
    [os.ErrProcessDone] is an error value of its own and wraps nothing. *)
Definition is_ESRCH (err : os.SignalError) : bool :=
  match err with
  | os.KillError syscall.ESRCH => true
  | _ => false
  end.

(** [isProcessRunning]: [os.FindProcess] finds any id on Unix and returns
    no error; signal 0 is sent to the process, and of the errors of
    [Signal] only [syscall.ESRCH] counts as not running. *)
Definition isProcessRunning (pid : Z) (w : World) : bool :=
  match os.Signal0 pid w with
  | Some err => if is_ESRCH err then false else true
  | None => true
  end.

(** The loop of [waitForPreviousCommand], with [n] turns left. *)
Fixpoint wait_turns (n : nat) (pidFile : string) (w : World) : bool * World :=
  match n with
  | O => (false, w)
  | S n' =>
      if os.IsNotExist (os.Stat pidFile w) then (true, w)
      else
        let pid := getPidFromFile pidFile w in
        if pid =? -1 then (false, os.Remove pidFile w)           (* can't read pid file *)
        else if negb (isProcessRunning pid w) then (false, os.Remove pidFile w)  (* stale *)
        else wait_turns n' pidFile (time_Sleep (1 * Second) w)
  end.

Definition waitForPreviousCommand (pidFile : string) (waitTimeSec : Z) (w : World)
  : bool * World :=
  wait_turns (Z.to_nat waitTimeSec) pidFile w.

(** [CreatePidFile]: the path of the lock file, or the empty string. *)
Definition CreatePidFile (command : list string) (w : World) : string * World :=
  let cacheDir := getCacheDir w in
  let commandHash := GenerateCommandHash command in
  let pidFile := filepath_Join cacheDir (commandHash +:+ ".pid") in
  let w :=
    if 0 <? maxRandSec - minRandSec
    then time_Sleep ((seed w mod (maxRandSec - minRandSec) + minRandSec) * Second) w
    else w in
  match waitForPreviousCommand pidFile maxWaitPrevSec w with
  | (false, w) => (EmptyString, w)
  | (true, w) =>
      match os.Create pidFile w with
      | (Some e, w) =>
          (EmptyString,
           os.eprint (Str.line ("Failed to create PID file: " +:+ os.text "open" pidFile e)) w)
      | (None, w) => (pidFile, os.WriteString pidFile (strconv.Itoa (pid w)) w)
      end
  end.

(** [sendTextToStdout]. *)
Definition sendTextToStdout (textFile : string) (w : World) : bool * World :=
  match os.ReadFile textFile w with
  | inl e =>
      (false, os.eprint (Str.line ("Failed to open file: " +:+ os.text "open" textFile e)) w)
  | inr text => (true, os.print text w)
  end.

(** [readFileOrDefault]. *)
Definition readFileOrDefault (path defaultValue : string) (w : World) : string :=
  match os.ReadFile path w with
  | inl _ => defaultValue
  | inr data => data
  end.

(** [RunCached]. *)
Definition RunCached (command : list string) (cacheTimeout : float64)
    (cacheOnError cacheOnAbort : bool) (w : World) : Outcome Z :=
  let '(pidFile, w) := CreatePidFile command w in
  if String.eqb pidFile EmptyString then
    Returns 2 (os.eprint (Str.line "Timeout waiting for previous command to finish") w)
  else
    defer (os.Remove pidFile)
      (let cache := NewCommandCache command cacheTimeout w in
       if IsValid cache w then
         let w := if verbose w then os.print (Str.line "Returning cached result") w else w in
         let w := snd (sendTextToStdout (OutputCache cache) w) in
         let returnCode := fst (strconv.Atoi (readFileOrDefault (ExitFile cache) "0" w)) in
         Returns returnCode w
       else
         let w := if verbose w then os.print (Str.line "Executing command") w else w in
         match ExecuteCommand command cache w with
         | Exits code w => Exits code w
         | Returns returnCode w =>
             Returns returnCode
               (if negb (returnCode =? 0) && negb cacheOnError
                then Invalidate cache w else w)
         end).

(** [main] once the flags are parsed: the command is what
    [PreprocessArguments] made of the positional arguments, and the process
    ends with the code [RunCached] returns. *)
Definition main (cacheTimeout : float64) (cacheOnError cacheOnAbort : bool)
    (positional : list string) (w : World) : Z * World :=
  match RunCached (PreprocessArguments positional) cacheTimeout
          cacheOnError cacheOnAbort w with
  | Returns code w => (code, w)
  | Exits code w => (code, w)
  end.

End Program.

(** * Notions the statements use *)

(** A value that fits in eight bits. *)
Definition is_byte (b : Z) : Prop := 0 <= b < 256.

(** The path of the lock file of a command. *)
Definition lock_path (command : list string) (w : World) : string :=
  filepath_Join (getCacheDir w) (GenerateCommandHash command +:+ ".pid").

(** The lock file exists, a process id can be read from it, and that
    process is running. *)
Definition live_lock (pidFile : string) (w : World) : Prop :=
  exists (f : File) (p : Z),
    os.Stat pidFile w = inr f /\
    strconv.Atoi (strings_TrimSpace (data f)) = (p, None) /\
    p <> -1 /\ p ∈ alive w.

(** The world once the guard is taken without waiting. *)
Definition locked (command : list string) (w : World) : World :=
  let p := lock_path command w in
  os.WriteString p (strconv.Itoa (pid w)) (snd (os.Create p w)).

(** The world once the child has run and its output is copied, and the world
    in which [ExecuteCommand] ends after a child that failed. *)
Definition after_copy (cache : CommandCache) (argv : list string) (r : Run)
    (w : World) : World :=
  let w := snd (os.Create (OutputCache cache) w) in
  let w := with_spawned (spawned w ++ [(argv, Some r)]) w in
  let w := with_clock (clock w + took r) w in
  let w := os.eprint (diverted r) w in
  let w := os.print (piped r) w in
  report_copy r (os.WriteString (OutputCache cache) (piped r) w).

Definition after_failure (cache : CommandCache) (argv : list string) (r : Run)
    (code : Z) (w : World) : World :=
  let w := after_copy cache argv r w in
  os.WriteString (ExitFile cache) (strconv.Itoa code) (snd (os.Create (ExitFile cache) w)).

(** Every character of a string passes a test. *)
Fixpoint all_chars (P : ascii -> bool) (s : string) : bool :=
  match s with
  | EmptyString => true
  | String c s' => P c && all_chars P s'
  end.

(** A lower-case hexadecimal digit. *)
Definition is_hex (c : ascii) : bool :=
  utf8.between 48 (Str.byte c) 57 || utf8.between 97 (Str.byte c) 102.

(** A character of seven bits. *)
Definition ascii7 (c : ascii) : bool := Str.byte c <? 128.

(** A character of a plain word: ASCII, and neither white space, nor a quote,
    nor an apostrophe, nor a backslash. *)
Definition plain_char (c : ascii) : bool :=
  (Str.byte c <? 128) && negb (unicode_IsSpace (Str.byte c))
  && negb (Ascii.eqb c Str.quote) && negb (Ascii.eqb c Str.apostrophe)
  && negb (Ascii.eqb c Str.backslash).

Definition plain_word (s : string) : bool :=
  negb (String.eqb s EmptyString) && all_chars plain_char s.

(** The tokens [CustomParse] returns from the state its loop ends in. *)
Definition finished (st : ParseState) : list string :=
  if 0 <? Str.len (token st) then result st ++ [token st] else result st.

(** What [RunCached] does between taking the guard and releasing it: the
    replay of a valid entry, or the execution and the invalidation. *)
Definition served (sys : System) (command : list string) (cache : CommandCache)
    (cacheOnError : bool) (w : World) : Outcome Z :=
  if IsValid cache w then
    let w := if verbose w then os.print (Str.line "Returning cached result") w else w in
    let w := snd (sendTextToStdout (OutputCache cache) w) in
    let returnCode := fst (strconv.Atoi (readFileOrDefault (ExitFile cache) "0" w)) in
    Returns returnCode w
  else
    let w := if verbose w then os.print (Str.line "Executing command") w else w in
    match ExecuteCommand sys command cache w with
    | Exits code w => Exits code w
    | Returns returnCode w =>
        Returns returnCode
          (if negb (returnCode =? 0) && negb cacheOnError
           then Invalidate cache w else w)
    end.

(** An ASCII white-space character, and an ASCII character that is not
    white space. *)
Definition blank (c : ascii) : bool :=
  (Str.byte c <? 128) && unicode_IsSpace (Str.byte c).

Definition solid (c : ascii) : bool :=
  (Str.byte c <? 128) && negb (unicode_IsSpace (Str.byte c)).

(** The lock file can be read and holds a process id other than -1. *)
Definition numbered_lock (pidFile : string) (w : World) : Prop :=
  exists (f : File) (p : Z),
    os.Stat pidFile w = inr f /\
    strconv.Atoi (strings_TrimSpace (data f)) = (p, None) /\
    p <> -1.

(** The chunk of a rune of one byte. *)
Definition unit_chunk (b : Z) : Z * list Z := (b, [b]).

(** * Sample machines

    Small worlds and systems on which the statements below are evaluated. *)

Module Sample.

(** A machine with an empty temporary directory; this process has id 100. *)
Definition fresh : World :=
  mkWorld ∅ ∅ {[100]} 0 100 "/tmp" 0 false EmptyString EmptyString [].

Definition put (path text : string) (t : Z) (w : World) : World :=
  with_disk (<[path := mkFile text t]> (files w)) w.

Definition blob_of (command : list string) : string :=
  "/tmp/" +:+ GenerateCommandHash command +:+ ".data".
Definition exit_of (command : list string) : string :=
  "/tmp/" +:+ GenerateCommandHash command +:+ ".exit".
Definition cmd_of (command : list string) : string :=
  "/tmp/" +:+ GenerateCommandHash command +:+ ".cmd".
Definition lock_of (command : list string) : string :=
  "/tmp/" +:+ GenerateCommandHash command +:+ ".pid".

(** Nothing else runs on the machine. *)
Definition quiet (w : World) : World := w.

End Sample.

Module Contended.

(** Process 7 holds the lock of [sleep 60] and keeps it. *)
Definition held : World :=
  with_disk {[ Sample.lock_of ["sleep"; "60"] := mkFile "7" 0 ]}
    (mkWorld ∅ ∅ {[7; 100]} 0 100 "/tmp" 0 false EmptyString EmptyString []).

Definition sys : System := mkSystem (fun _ _ => None) Sample.quiet.

End Contended.

Module Failing.

(** Every command prints one line and ends with code 3 after a second. *)
Definition sys : System :=
  mkSystem (fun _ _ => Some (mkRun (Str.line "boom") EmptyString Second
                               (ExitError (Exited 3)) None))
           Sample.quiet.

Definition command : list string := ["make"; "check"].
Definition argv : list string := ["bash"; "-i"; "-c"; "make check"].
Definition run : Run := mkRun (Str.line "boom") EmptyString Second (ExitError (Exited 3)) None.

(** The machine after a first call, with and without "cache on error". *)
Definition kept : World := world_of (RunCached sys command 20 true false Sample.fresh).
Definition dropped : World := world_of (RunCached sys command 20 false false Sample.fresh).

End Failing.

Module Layout.

(** On a fresh machine, under "cache on error", [make check] fails with code
    3: the entry that is left. *)
Definition after : World :=
  world_of (RunCached Failing.sys Failing.command 20 true false Sample.fresh).

End Layout.

Module Recovering.

(** A service that is down during the first minute and up afterwards. *)
Definition sys : System :=
  mkSystem
    (fun _ w =>
       Some (if clock w <? 60 * Second
             then mkRun (Str.line "down") EmptyString Second (ExitError (Exited 3)) None
             else mkRun (Str.line "up") EmptyString Second WaitOk None))
    Sample.quiet.

Definition command : list string := ["probe"].

(** Three calls with the default flags, at 0 s, 100 s and 105 s. *)
Definition first : Outcome Z := RunCached sys command 20 false false Sample.fresh.
Definition second : Outcome Z :=
  RunCached sys command 20 false false (with_clock (100 * Second) (world_of first)).
Definition third : Outcome Z :=
  RunCached sys command 20 false false (with_clock (105 * Second) (world_of second)).

End Recovering.

Module Stale.

(** The lock of [date] names process 4242, which does not exist. *)
Definition command : list string := ["date"].

Definition start : World :=
  Sample.put (Sample.lock_of command) "4242" 0 (with_clock (50 * Second) Sample.fresh).

Definition sys : System :=
  mkSystem (fun _ _ => Some (mkRun (Str.line "Mon") EmptyString 0 WaitOk None)) Sample.quiet.

End Stale.

Module Noisy.

(** A command that writes one line to each of its two output streams. *)
Definition sys : System :=
  mkSystem (fun _ _ => Some (mkRun (Str.line "result") (Str.line "warning") Second WaitOk None))
           Sample.quiet.

Definition command : list string := ["report"].

Definition first : Outcome Z := RunCached sys command 20 false false Sample.fresh.
Definition second : Outcome Z :=
  RunCached sys command 20 false false (with_clock (5 * Second) (world_of first)).

End Noisy.

Module Quoting.

Definition bs : string := String Str.backslash EmptyString.

(** The one argument [he said "hi"], and the three words it falls into. *)
Definition spoken : list string := ["echo"; "he said " +:+ Str.quoted "hi"].
Definition scattered : list string := ["echo"; "he"; "said"; Str.quoted "hi"].

(** The arguments and the expected line of [TestConstructBashCommand]. *)
Definition tested : list string :=
  ["ls"; "-l"; Str.quoted ("file with" +:+ bs +:+ bs +:+ " spaces")].
Definition expected : string :=
  "ls -l " +:+ bs +:+ Str.quoted ("file with" +:+ bs +:+ bs +:+ bs +:+ bs +:+ " spaces" +:+ bs).

End Quoting.

Module Unclosed.

(** A command with one apostrophe: [echo it's]. *)
Definition positional : list string := ["echo"; "it's"].

Definition sys : System :=
  mkSystem (fun _ _ => Some (mkRun (Str.line "its") EmptyString 0 WaitOk None)) Sample.quiet.

Definition command : list string := PreprocessArguments positional.

End Unclosed.

Module Sealed.

(** A machine on which the cache file of [date] cannot be opened. *)
Definition command : list string := ["date"].

Definition start : World :=
  mkWorld ∅ {[ Sample.blob_of command ]} {[100]} 0 100 "/tmp" 0 false
    EmptyString EmptyString [].

End Sealed.

Module Handover.

(** Process 7 holds the lock of [date]; the lock disappears during the
    second of seconds this process sleeps. *)
Definition command : list string := ["date"].

Definition held : World :=
  with_disk {[ Sample.lock_of command := mkFile "7" 0 ]}
    (mkWorld ∅ ∅ {[7; 100]} 0 100 "/tmp" 0 false EmptyString EmptyString []).

Definition release (w : World) : World :=
  if Second <=? clock w then with_disk (delete (Sample.lock_of command) (files w)) w
  else w.

Definition sys : System :=
  mkSystem (fun _ _ => Some (mkRun (Str.line "Mon") EmptyString 0 WaitOk None)) release.

End Handover.

Module Torn.

(** The lock of [date] is there and empty: a process has created it and not
    yet written its id. *)
Definition start : World :=
  with_disk {[ Sample.lock_of Stale.command := mkFile EmptyString 0 ]} Sample.fresh.

End Torn.

(** * Properties *)

(** ** Fingerprints *)

Section Fingerprint.

Lemma le_bytes_range n x : Forall is_byte (md5.le_bytes n x).
Proof.
  unfold md5.le_bytes. apply Forall_map, Forall_forall. intros k _.
  unfold is_byte. apply Z.mod_pos_bound. lia.
Qed.

Lemma Sum_range msg : Forall is_byte (md5.Sum msg).
Proof.
  unfold md5.Sum.
  destruct (md5.blocks _ _ _) as [[[a b] c] d].
  repeat apply Forall_app_2; apply le_bytes_range.
Qed.

Lemma digit_inj n m :
  0 <= n < 16 -> 0 <= m < 16 -> hex.digit n = hex.digit m -> n = m.
Proof.
  intros Hn Hm.
  rewrite <- (Z2Nat.id n), <- (Z2Nat.id m) by lia.
  assert (Z.to_nat n < 16)%nat as Hn' by lia.
  assert (Z.to_nat m < 16)%nat as Hm' by lia.
  unfold hex.digit. rewrite !Nat2Z.id.
  generalize dependent (Z.to_nat m). generalize dependent (Z.to_nat n).
  clear. intros i Hi j Hj.
  do 16 (destruct i as [|i]; [ do 16 (destruct j as [|j]; [ vm_compute; congruence | ]); lia | ]).
  lia.
Qed.

Lemma EncodeToString_inj l1 l2 :
  Forall is_byte l1 -> Forall is_byte l2 ->
  hex.EncodeToString l1 = hex.EncodeToString l2 -> l1 = l2.
Proof.
  intros H1. revert l2.
  induction H1 as [|b l1 Hb _ IH]; intros l2 H2 Heq.
  - destruct l2; [reflexivity | discriminate].
  - destruct H2 as [|b' l2 Hb' H2]; [discriminate|].
    simpl in Heq. injection Heq as Hhi Hlo Hrest.
    unfold is_byte in *.
    apply digit_inj in Hhi; [| split; [apply Z.div_pos | apply Z.div_lt_upper_bound]; lia ..].
    apply digit_inj in Hlo; [| apply Z.mod_pos_bound; lia ..].
    f_equal; [ | by apply IH].
    rewrite (Z.div_mod b 16), (Z.div_mod b' 16) by lia. congruence.
Qed.

Lemma same_line_same_hash c1 c2 :
  strings_Join c1 " " = strings_Join c2 " " ->
  GenerateCommandHash c1 = GenerateCommandHash c2.
Proof. unfold GenerateCommandHash. by intros ->. Qed.

End Fingerprint.

(** C2, as stated, fails: two command specifications that differ in the
    number of their arguments have the same fingerprint, with certainty. *)
Lemma fingerprint_ignores_boundaries :
  ["echo"; "a b"] <> ["echo"; "a"; "b"] /\
  GenerateCommandHash ["echo"; "a b"] = GenerateCommandHash ["echo"; "a"; "b"].
Proof. split; [discriminate | by apply same_line_same_hash]. Qed.

(** C2, amended: the fingerprint is a function of the arguments joined by
    one space.  Command specifications with the same joined line have the
    same fingerprint, and two fingerprints are equal only when the MD5
    digests of the two joined lines are: specifications whose joined lines
    differ collide exactly when MD5 does. *)
Theorem fingerprint_of_joined_line (c1 c2 : list string) :
  (strings_Join c1 " " = strings_Join c2 " " ->
   GenerateCommandHash c1 = GenerateCommandHash c2) /\
  (GenerateCommandHash c1 = GenerateCommandHash c2 <->
   md5.Sum (Str.bytes (strings_Join c1 " ")) = md5.Sum (Str.bytes (strings_Join c2 " "))).
Proof.
  split; [apply same_line_same_hash |].
  unfold GenerateCommandHash. split.
  - apply EncodeToString_inj; apply Sum_range.
  - by intros ->.
Qed.

(** C2 on a sample: two command lines one character apart have different
    digests, hence different fingerprints; two specifications with one joined
    line have one fingerprint. *)
Lemma fingerprint_of_joined_line_adjacent :
  GenerateCommandHash ["ls"; "-l"] <> GenerateCommandHash ["ls"; "-a"] /\
  GenerateCommandHash ["ls"; "-l"; "/tmp"] = GenerateCommandHash ["ls"; "-l /tmp"].
Proof.
  split.
  - intros H.
    apply (proj1 (proj2 (fingerprint_of_joined_line ["ls"; "-l"] ["ls"; "-a"]))) in H.
    vm_compute in H. discriminate.
  - apply (proj1 (fingerprint_of_joined_line ["ls"; "-l"; "/tmp"] ["ls"; "-l /tmp"])).
    reflexivity.
Defined.

(** ** Validity of a cache entry *)

(** Integers below [2^53] and durations of whole seconds in [float64] *)

Section Floats.

Lemma digits2_size p : digits2_pos p = Pos.size p.
Proof. induction p as [p IH | p IH |]; simpl; by rewrite ?IH. Qed.

Lemma digits2_bounds p :
  2 ^ (Z.pos (digits2_pos p) - 1) <= Z.pos p < 2 ^ Z.pos (digits2_pos p).
Proof.
  rewrite digits2_size.
  pose proof (Pos.size_gt p) as Hgt. pose proof (Pos.size_le p) as Hle.
  apply Pos2Z.pos_lt_pos in Hgt. apply Pos2Z.pos_le_pos in Hle.
  rewrite Pos2Z.inj_pow in Hgt, Hle. change (Z.pos p~0) with (2 * Z.pos p) in Hle.
  assert (2 ^ Z.pos (Pos.size p) = 2 * 2 ^ (Z.pos (Pos.size p) - 1)) as E
    by (rewrite <- Z.pow_succ_r by lia; f_equal; lia).
  lia.
Qed.

Lemma iter_xO_value n p : Z.pos (Pos.iter xO p n) = Z.pos p * 2 ^ Z.pos n.
Proof.
  induction n as [|n IH] using Pos.peano_ind.
  - simpl. lia.
  - rewrite Pos.iter_succ, Pos2Z.inj_xO, IH, Pos2Z.inj_succ, Z.pow_succ_r by lia. lia.
Qed.

Lemma iter_xO_digits n p :
  Z.pos (digits2_pos (Pos.iter xO p n)) = Z.pos (digits2_pos p) + Z.pos n.
Proof.
  induction n as [|n IH] using Pos.peano_ind.
  - simpl. lia.
  - rewrite Pos.iter_succ. simpl. rewrite Pos2Z.inj_succ, IH. lia.
Qed.

(** [float64(i)] for a positive [i] below [2^53]: the integer is shifted
    to 53 bits and nothing is rounded. *)
Lemma binary_round_small s p :
  Z.pos p < 2 ^ 53 ->
  Z.pos (digits2_pos p) <= 53 /\
  exists m,
    binary_round 53 1024 s p 0 = S754_finite s m (Z.pos (digits2_pos p) - 53) /\
    Z.pos m = Z.pos p * 2 ^ (53 - Z.pos (digits2_pos p)).
Proof.
  intros Hp.
  assert (1 <= Z.pos (digits2_pos p) <= 53) as Hd.
  { split; [lia |]. destruct (digits2_bounds p) as [Hlo _].
    destruct (Z_le_gt_dec (Z.pos (digits2_pos p)) 53) as [|Hgt]; [done |].
    assert (2 ^ 53 <= 2 ^ (Z.pos (digits2_pos p) - 1)) by (apply Z.pow_le_mono_r; lia).
    lia. }
  split; [lia |].
  unfold binary_round, shl_align.
  assert (fexp 53 1024 (Z.pos (digits2_pos p) + 0) = Z.pos (digits2_pos p) - 53) as ->
    by (unfold fexp, emin; lia).
  rewrite Z.sub_0_r.
  assert (exists mz ez,
            (match Z.pos (digits2_pos p) - 53 with
             | Z.neg d => (Pos.iter xO p d, Z.pos (digits2_pos p) - 53)
             | _ => (p, 0)
             end) = (mz, ez)
            /\ Z.pos mz = Z.pos p * 2 ^ (53 - Z.pos (digits2_pos p))
            /\ ez = Z.pos (digits2_pos p) - 53
            /\ Z.pos (digits2_pos mz) = 53) as (mz & ez & -> & Hmz & Hez & Hdz).
  { destruct (Z.pos (digits2_pos p) - 53) as [| k | k] eqn:Hk.
    - exists p, 0. replace (53 - Z.pos (digits2_pos p)) with 0 by lia.
      repeat split; lia.
    - lia.
    - eexists _, _. split; [reflexivity |]. split; [| split; [reflexivity |]].
      + rewrite iter_xO_value. f_equal. f_equal. lia.
      + rewrite iter_xO_digits. lia. }
  exists mz. split; [| done]. rewrite <- Hez.
  unfold binary_round_aux, shr_fexp. cbn [Zdigits2 shr_record_of_loc].
  assert (fexp 53 1024 (Z.pos (digits2_pos mz) + ez) - ez = 0) as ->
    by (unfold fexp, emin; lia).
  cbn [shr shr_m loc_of_shr_record round_nearest_even Zdigits2 shr_record_of_loc].
  assert (fexp 53 1024 (Z.pos (digits2_pos mz) + ez) - ez = 0) as ->
    by (unfold fexp, emin; lia).
  cbn [shr shr_m].
  replace (ez <=? 1024 - 53) with true by (symmetry; apply Z.leb_le; lia).
  done.
Qed.

(** Two integers below [2^53] compare as their conversions do. *)
Lemma shifted_compare p q m1 m2 :
  Z.pos (digits2_pos p) <= 53 -> Z.pos (digits2_pos q) <= 53 ->
  Z.pos m1 = Z.pos p * 2 ^ (53 - Z.pos (digits2_pos p)) ->
  Z.pos m2 = Z.pos q * 2 ^ (53 - Z.pos (digits2_pos q)) ->
  match Z.pos (digits2_pos p) - 53 ?= Z.pos (digits2_pos q) - 53 with
  | Lt => Lt
  | Gt => Gt
  | Eq => Pos.compare_cont Eq m1 m2
  end = (Z.pos p ?= Z.pos q).
Proof.
  intros Hp Hq H1 H2.
  destruct (digits2_bounds p) as [Hplo Hphi]. destruct (digits2_bounds q) as [Hqlo Hqhi].
  destruct (Z.compare_spec (Z.pos (digits2_pos p) - 53) (Z.pos (digits2_pos q) - 53))
    as [He | Hlt | Hgt].
  - change (Pos.compare_cont Eq m1 m2) with (Z.pos m1 ?= Z.pos m2).
    rewrite H1, H2. replace (Z.pos (digits2_pos q)) with (Z.pos (digits2_pos p)) by lia.
    symmetry. apply Zmult_compare_compat_r.
    apply Z.lt_gt, Z.pow_pos_nonneg; lia.
  - symmetry. apply Z.compare_lt_iff.
    assert (2 ^ Z.pos (digits2_pos p) <= 2 ^ (Z.pos (digits2_pos q) - 1))
      by (apply Z.pow_le_mono_r; lia).
    lia.
  - symmetry. apply Z.compare_gt_iff.
    assert (2 ^ Z.pos (digits2_pos q) <= 2 ^ (Z.pos (digits2_pos p) - 1))
      by (apply Z.pow_le_mono_r; lia).
    lia.
Qed.

Lemma float64_of_int_compare a b :
  - 2 ^ 53 < a < 2 ^ 53 -> - 2 ^ 53 < b < 2 ^ 53 ->
  SFcompare (float64_of_int a) (float64_of_int b) = Some (a ?= b).
Proof.
  intros Ha Hb. unfold float64_of_int, binary_normalize.
  destruct a as [| p | p], b as [| q | q]; try done.
  - destruct (binary_round_small false q) as (_ & m & -> & _); [lia | done].
  - destruct (binary_round_small true q) as (_ & m & -> & _); [lia | done].
  - destruct (binary_round_small false p) as (_ & m & -> & _); [lia | done].
  - destruct (binary_round_small false p) as (Hp & m1 & -> & H1); [lia |].
    destruct (binary_round_small false q) as (Hq & m2 & -> & H2); [lia |].
    cbn [SFcompare]. f_equal. by apply shifted_compare.
  - destruct (binary_round_small false p) as (_ & m1 & -> & _); [lia |].
    destruct (binary_round_small true q) as (_ & m2 & -> & _); [lia | done].
  - destruct (binary_round_small true p) as (_ & m & -> & _); [lia | done].
  - destruct (binary_round_small true p) as (_ & m1 & -> & _); [lia |].
    destruct (binary_round_small false q) as (_ & m2 & -> & _); [lia | done].
  - destruct (binary_round_small true p) as (Hp & m1 & -> & H1); [lia |].
    destruct (binary_round_small true q) as (Hq & m2 & -> & H2); [lia |].
    cbn [SFcompare]. f_equal.
    change (Z.neg p ?= Z.neg q) with (CompOpp (Z.pos p ?= Z.pos q)).
    rewrite <- (shifted_compare p q m1 m2) by done.
    by destruct (_ ?= _).
Qed.

Lemma float64_le_of_int a b :
  - 2 ^ 53 < a < 2 ^ 53 -> - 2 ^ 53 < b < 2 ^ 53 ->
  float64_le (float64_of_int a) (float64_of_int b) = (a <=? b).
Proof.
  intros Ha Hb. unfold float64_le, SFleb. rewrite float64_of_int_compare by done.
  unfold Z.leb. by destruct (a ?= b).
Qed.

(** A duration of whole seconds is converted without rounding. *)
Lemma Seconds_whole s :
  - 2 ^ 53 < s < 2 ^ 53 -> Seconds (s * Second) = float64_of_int s.
Proof.
  intros Hs. unfold Seconds. cbv zeta.
  rewrite Z.quot_mul, Z.rem_mul by done.
  change (float64_div (float64_of_int 0) (float64_of_int 1000000000))
    with (S754_zero false).
  unfold float64_of_int, binary_normalize.
  destruct s as [| p | p]; [done | |].
  - destruct (binary_round_small false p) as (_ & m & -> & _); [lia | done].
  - destruct (binary_round_small true p) as (_ & m & -> & _); [lia | done].
Qed.

Lemma time_Sub_exact t u :
  minDuration <= t - u <= maxDuration -> time_Sub t u = t - u.
Proof.
  intros H. unfold time_Sub. cbv zeta.
  destruct (Z.ltb_spec (t - u) minDuration); [lia |].
  destruct (Z.ltb_spec maxDuration (t - u)); [lia | done].
Qed.

End Floats.
(** C8, as stated, fails: what the program compares with the timeout is not
    always now minus the modification time.  A blob last modified about 326
    years before the call is valid under a timeout of 9300000000 seconds,
    about 295 years, because a [time.Duration] stops at [2^63 - 1]
    nanoseconds; and a blob of 300000000 nanoseconds is valid under the
    timeout 0.3, the [float64] next to three tenths, which is below three
    tenths. *)
Lemma IsValid_not_by_exact_age :
  (let cc := NewCommandCache ["date"] 9300000000 Sample.fresh in
   let w := with_clock (1800000000 * Second)
              (Sample.put (OutputCache cc) "Mon" (- 8490000000 * Second) Sample.fresh) in
   files w !! OutputCache cc = Some (mkFile "Mon" (- 8490000000 * Second)) /\
   (exists q, float64_value (CacheTimeout cc) = Some q /\ (q == 9300000000 # 1)%Q) /\
   9300000000 * Second < clock w - (- 8490000000 * Second) /\
   IsValid cc w = true) /\
  (let timeout := S754_finite false 5404319552844595 (-54) in
   let cc := NewCommandCache ["date"] timeout Sample.fresh in
   let w := with_clock 300000000 (Sample.put (OutputCache cc) "Mon" 0 Sample.fresh) in
   files w !! OutputCache cc = Some (mkFile "Mon" 0) /\
   (exists q, float64_value (CacheTimeout cc) = Some q /\
              (q < (clock w - 0) # 1000000000)%Q) /\
   IsValid cc w = true).
Proof.
  split.
  - split; [by vm_compute |]. split; [eexists; split; [by vm_compute | by vm_compute] |].
    split; [by vm_compute | by vm_compute].
  - split; [by vm_compute |]. split; [eexists; split; [by vm_compute | by vm_compute] |].
    by vm_compute.
Qed.

(** C8, amended: validity is a function of time only.  [IsValid] answers
    false when the output blob does not exist or its metadata cannot be
    read.  For a blob that exists it answers true exactly when the age the
    program measures is at most the timeout, whatever the blob holds: that
    age is now minus the modification time, kept within the range of a
    [time.Duration] and converted to seconds in [float64].  When the age is a
    whole number of seconds inside that range and the timeout a whole number
    of seconds below [2^53], nothing is rounded and the answer is true
    exactly when now minus the modification time is at most the timeout. *)
Theorem IsValid_by_age (cc : CommandCache) (w : World) :
  (files w !! OutputCache cc = None -> IsValid cc w = false) /\
  (OutputCache cc ∈ denied w -> IsValid cc w = false) /\
  (forall blob : File,
     OutputCache cc ∉ denied w -> files w !! OutputCache cc = Some blob ->
     (IsValid cc w = true <->
      float64_le (Seconds (time_Sub (clock w) (modTime blob))) (CacheTimeout cc) = true) /\
     (forall age limit : Z,
        clock w - modTime blob = age * Second ->
        minDuration <= age * Second <= maxDuration ->
        CacheTimeout cc = float64_of_int limit -> - 2 ^ 53 < limit < 2 ^ 53 ->
        IsValid cc w = true <-> age <= limit)).
Proof.
  unfold IsValid, os.Stat. split; [| split].
  - intros ->. by case_bool_decide.
  - intros Hin. by rewrite bool_decide_eq_true_2.
  - intros blob Hok Hblob.
    rewrite bool_decide_eq_false_2, Hblob by done.
    unfold seconds_since, time_Since. split; [done |].
    intros age limit Hage Hrange -> Hlimit.
    assert (- 2 ^ 53 < age < 2 ^ 53) as Hsmall
      by (unfold minDuration, maxDuration, Second in Hrange; lia).
    rewrite time_Sub_exact, Hage, Seconds_whole, float64_le_of_int by (done || lia).
    apply Z.leb_le.
Qed.

(** C8 on a sample: a blob written at time 0 is valid five seconds later
    under a timeout of twenty seconds, and no longer after twenty-one. *)
Lemma IsValid_by_age_sample :
  let cc := NewCommandCache ["date"] 20 Sample.fresh in
  let w := Sample.put (OutputCache cc) "Mon" 0 Sample.fresh in
  IsValid cc (with_clock (5 * Second) w) = true /\
  IsValid cc (with_clock (21 * Second) w) <> true.
Proof.
  intros cc w.
  assert (forall t, OutputCache cc ∉ denied (with_clock t w)) as Hden
    by (intros t; vm_compute; set_solver).
  assert (forall t, files (with_clock t w) !! OutputCache cc = Some (mkFile "Mon" 0))
    as Hfile by (intros t; by vm_compute).
  split.
  - apply (proj2 (proj2 (proj2 (IsValid_by_age cc (with_clock (5 * Second) w)))
                    (mkFile "Mon" 0) (Hden _) (Hfile _)) 5 20); by vm_compute.
  - destruct (proj2 (proj2 (proj2 (IsValid_by_age cc (with_clock (21 * Second) w)))
                       (mkFile "Mon" 0) (Hden _) (Hfile _)) 21 20) as [Hto _];
      [by vm_compute | by vm_compute | by vm_compute | by vm_compute |].
    intros H. specialize (Hto H). lia.
Defined.

(** ** Frame facts: what each operation leaves alone *)

Section Frame.

Context (sys : System).

Lemma clock_Sleep d w : clock (time_Sleep sys d w) = clock w + d.
Proof. reflexivity. Qed.

Lemma iter_Sleep_clock n w :
  clock (Nat.iter n (time_Sleep sys Second) w) = clock w + Z.of_nat n * Second.
Proof.
  induction n as [|n IH]; simpl Nat.iter.
  - lia.
  - rewrite clock_Sleep, IH. lia.
Qed.

Lemma iter_Sleep_streams n w :
  let w' := Nat.iter n (time_Sleep sys Second) w in
  stdout w' = stdout w /\ stderr w' = stderr w /\ spawned w' = spawned w
  /\ tmpDir w' = tmpDir w /\ pid w' = pid w.
Proof. induction n as [|n IH]; simpl; [done | apply IH]. Qed.

Lemma Remove_frame path w :
  let w' := os.Remove path w in
  clock w' = clock w /\ stdout w' = stdout w /\ stderr w' = stderr w
  /\ spawned w' = spawned w /\ tmpDir w' = tmpDir w /\ denied w' = denied w.
Proof. unfold os.Remove. by case_bool_decide. Qed.

Lemma WriteString_frame path s w :
  let w' := os.WriteString path s w in
  clock w' = clock w /\ stdout w' = stdout w /\ stderr w' = stderr w
  /\ spawned w' = spawned w /\ tmpDir w' = tmpDir w /\ denied w' = denied w.
Proof. by destruct s. Qed.

Lemma report_copy_frame r w :
  let w' := report_copy r w in
  clock w' = clock w /\ stderr w' = stderr w /\ spawned w' = spawned w
  /\ tmpDir w' = tmpDir w /\ denied w' = denied w /\ verbose w' = verbose w
  /\ files w' = files w
  /\ stdout w' = match copyError r with
                 | Some e => stdout w +:+ Str.line ("Error copying to writers: " +:+ e)
                 | None => stdout w
                 end.
Proof. unfold report_copy. by destruct (copyError r). Qed.

(** The wait loop sleeps whole seconds, at most as many as it has turns. *)
Lemma wait_turns_clock n pidFile w :
  exists k : nat, (k <= n)%nat /\
    clock (snd (wait_turns sys n pidFile w)) = clock w + Z.of_nat k * Second.
Proof.
  revert w. induction n as [|n IH]; intros w; simpl.
  - exists 0%nat. split; [lia | simpl; lia].
  - destruct (os.IsNotExist _); [exists 0%nat; simpl; split; lia |].
    destruct (_ =? -1).
    { exists 0%nat. simpl. rewrite (proj1 (Remove_frame _ _)). split; lia. }
    destruct (negb _).
    { exists 0%nat. simpl. rewrite (proj1 (Remove_frame _ _)). split; lia. }
    destruct (IH (time_Sleep sys (1 * Second) w)) as (k & Hk & ->).
    exists (S k). rewrite clock_Sleep. split; lia.
Qed.

Lemma wait_turns_log n pidFile w :
  let w' := snd (wait_turns sys n pidFile w) in
  stdout w' = stdout w /\ stderr w' = stderr w /\ spawned w' = spawned w
  /\ tmpDir w' = tmpDir w.
Proof.
  revert w. induction n as [|n IH]; intros w; simpl; [done |].
  destruct (os.IsNotExist _); [done |].
  destruct (_ =? -1); [simpl; by destruct (Remove_frame pidFile w) as (_ & ? & ? & ? & ? & _) |].
  destruct (negb _); [simpl; by destruct (Remove_frame pidFile w) as (_ & ? & ? & ? & ? & _) |].
  apply (IH (time_Sleep sys (1 * Second) w)).
Qed.

End Frame.

(** ** The guard *)

#[global] Arguments GenerateCommandHash : simpl never.
#[global] Arguments filepath_Join : simpl never.

Section Guard.

Context (sys : System).

(** No process id is ever found not to run: a process that is gone makes
    [Signal] return [os.ErrProcessDone], which is not [syscall.ESRCH]. *)
Lemma isProcessRunning_true pid w : isProcessRunning pid w = true.
Proof.
  unfold isProcessRunning, os.Signal0, syscall.Kill0. by case_bool_decide.
Qed.

Lemma live_lock_turn pidFile w :
  live_lock pidFile w ->
  os.IsNotExist (os.Stat pidFile w) = false /\
  (getPidFromFile pidFile w =? -1) = false /\
  isProcessRunning (getPidFromFile pidFile w) w = true.
Proof.
  intros (f & p & Hstat & Hpid & Hp & Halive).
  unfold getPidFromFile, os.ReadFile.
  rewrite Hstat, Hpid. simpl.
  split; [done |]. split; [lia |]. apply isProcessRunning_true.
Qed.

Lemma wait_turns_live n pidFile w :
  (forall k, (k < n)%nat -> live_lock pidFile (Nat.iter k (time_Sleep sys Second) w)) ->
  wait_turns sys n pidFile w = (false, Nat.iter n (time_Sleep sys Second) w).
Proof.
  revert w. induction n as [|n IH]; intros w Hlive; [done |].
  destruct (live_lock_turn pidFile w (Hlive 0%nat ltac:(lia))) as (H1 & H2 & H3).
  cbn [wait_turns]. rewrite H1, H2, H3. cbn [negb].
  change (1 * Second) with Second.
  rewrite Nat.iter_succ_r. apply IH.
  intros k Hk. rewrite <- Nat.iter_succ_r. apply Hlive. lia.
Qed.

Lemma CreatePidFile_unfold command w :
  CreatePidFile sys command w =
  let pidFile := filepath_Join (getCacheDir w) (GenerateCommandHash command +:+ ".pid") in
  match waitForPreviousCommand sys pidFile maxWaitPrevSec w with
  | (false, w) => (EmptyString, w)
  | (true, w) =>
      match os.Create pidFile w with
      | (Some e, w) =>
          (EmptyString,
           os.eprint (Str.line ("Failed to create PID file: " +:+ os.text "open" pidFile e)) w)
      | (None, w) => (pidFile, os.WriteString pidFile (strconv.Itoa (pid w)) w)
      end
  end.
Proof. reflexivity. Qed.

Lemma CreatePidFile_clock command w :
  exists k : nat, (k <= 5)%nat /\
    clock (snd (CreatePidFile sys command w)) = clock w + Z.of_nat k * Second.
Proof.
  rewrite CreatePidFile_unfold. cbv zeta.
  unfold waitForPreviousCommand.
  change (Z.to_nat maxWaitPrevSec) with 5%nat.
  set (pidFile := filepath_Join _ _).
  destruct (wait_turns_clock sys 5 pidFile w) as (k & Hk & Hclock).
  exists k. split; [done |].
  destruct (wait_turns sys 5 pidFile w) as [[] w']; simpl in *; [| done].
  unfold os.Create. case_bool_decide; simpl; [done |].
  destruct (strconv.Itoa _); simpl; done.
Qed.

End Guard.

(** C10: the wait for the guard is bounded by a budget fixed in the program.
    The budget is five seconds; acquisition ends after at most five sleeps of
    one second each; and when the lock is live at each of the five polls the
    invocation gives up with the timeout outcome, whatever the caller passed:
    code 2, the timeout message, no command started. *)
Theorem guard_wait_bounded (sys : System) (command : list string) (w : World) :
  maxWaitPrevSec = 5 /\
  (exists k : nat, (k <= 5)%nat /\
     clock (snd (CreatePidFile sys command w)) = clock w + Z.of_nat k * Second) /\
  (let pidFile := filepath_Join (getCacheDir w) (GenerateCommandHash command +:+ ".pid") in
   (forall k, (k < 5)%nat -> live_lock pidFile (Nat.iter k (time_Sleep sys Second) w)) ->
   forall (cacheTimeout : float64) (cacheOnError cacheOnAbort : bool),
   exists w',
     RunCached sys command cacheTimeout cacheOnError cacheOnAbort w = Returns 2 w' /\
     stderr w' = stderr w +:+ Str.line "Timeout waiting for previous command to finish" /\
     stdout w' = stdout w /\ spawned w' = spawned w /\
     files w' = files (Nat.iter 5 (time_Sleep sys Second) w) /\
     clock w' = clock w + 5 * Second).
Proof.
  split; [reflexivity |]. split; [apply CreatePidFile_clock |].
  intros pidFile Hlive cacheTimeout cacheOnError cacheOnAbort.
  unfold RunCached. rewrite CreatePidFile_unfold. cbv zeta.
  unfold waitForPreviousCommand. change (Z.to_nat maxWaitPrevSec) with 5%nat.
  fold pidFile. rewrite (wait_turns_live sys 5 pidFile w Hlive).
  cbn [String.eqb].
  eexists. split; [reflexivity |].
  destruct (iter_Sleep_streams sys 5 w) as (Hout & Herr & Hsp & _).
  cbn [stderr stdout spawned files clock os.eprint with_stderr].
  rewrite Herr, Hout, Hsp, iter_Sleep_clock. done.
Qed.

(** C10 on a sample: with the lock of the command held by a running process
    throughout, the invocation ends with code 2 after five seconds. *)
Lemma guard_wait_bounded_contended :
  exists w',
    RunCached Contended.sys ["sleep"; "60"] 20 false false Contended.held = Returns 2 w' /\
    clock w' = 5 * Second.
Proof.
  destruct (proj2 (proj2 (guard_wait_bounded Contended.sys ["sleep"; "60"] Contended.held)))
    with (cacheTimeout := float64_of_int 20) (cacheOnError := false) (cacheOnAbort := false)
    as (w' & Hrun & _ & _ & _ & _ & Hclock).
  - intros k Hk. exists (mkFile "7" 0), 7.
    do 5 (destruct k as [|k]; [vm_compute; split_and!; try done; set_solver |]). lia.
  - exists w'. split; [exact Hrun | exact Hclock].
Defined.

(** ** Decimal text *)

Section Decimal.

Lemma append_cons x (a b : string) : String x a +:+ b = String x (a +:+ b).
Proof. reflexivity. Qed.

Lemma append_assoc (a b c : string) : (a +:+ b) +:+ c = a +:+ (b +:+ c).
Proof. induction a as [|x a IH]; [done | rewrite !append_cons; congruence]. Qed.

Lemma len_append (a b : string) : Str.len (a +:+ b) = Str.len a + Str.len b.
Proof.
  unfold Str.len. induction a as [|x a IH]; [done |].
  rewrite append_cons. cbn [String.length]. rewrite !Nat2Z.inj_succ. lia.
Qed.

Lemma byte_chr b : 0 <= b < 256 -> Str.byte (Str.chr b) = b.
Proof.
  intros Hb. unfold Str.byte, Str.chr.
  rewrite Z.mod_small, N_ascii_embedding by lia. lia.
Qed.

Lemma digit_char d :
  0 <= d < 10 ->
  let c := Str.chr (48 + d) in
  strconv.is_digit c = true /\ Str.byte c - 48 = d /\
  Ascii.eqb c "-" = false /\ Ascii.eqb c "+" = false.
Proof.
  intros Hd c. assert (Str.byte c = 48 + d) as Hc by (apply byte_chr; lia).
  unfold strconv.is_digit, utf8.between. rewrite Hc.
  split; [lia |]. split; [lia |].
  split; apply Ascii.eqb_neq; intros Heq; rewrite Heq in Hc.
  - change (Str.byte "-") with 45 in Hc. lia.
  - change (Str.byte "+") with 43 in Hc. lia.
Qed.

(** The digits written for [u] read back as [u]. *)
Lemma digits_read fuel : forall u acc,
  (0 < fuel)%nat -> 0 <= u < 10 ^ Z.of_nat fuel ->
  exists c pre,
    strconv.digits fuel u acc = String c (pre +:+ acc) /\
    strconv.is_digit c = true /\ Ascii.eqb c "-" = false /\ Ascii.eqb c "+" = false /\
    forall rest a,
      strconv.digits_value (String c (pre +:+ rest)) a
      = strconv.digits_value rest (a * 10 ^ (1 + Str.len pre) + u).
Proof.
  induction fuel as [|fuel IH]; intros u acc Hfuel Hu; [lia |].
  assert (0 <= u mod 10 < 10) as Hd by (apply Z.mod_pos_bound; lia).
  destruct (digit_char (u mod 10) Hd) as (Hdig & Hval & Hminus & Hplus).
  cbn [strconv.digits]. cbv zeta.
  destruct (Z.ltb_spec u 10) as [Hsmall | Hbig].
  - exists (Str.chr (48 + u mod 10)), EmptyString.
    split; [done |]. repeat (split; [done |]).
    intros rest a. cbn [strconv.digits_value].
    change (EmptyString +:+ rest) with rest.
    rewrite Hdig, Hval, Z.mod_small by lia. f_equal.
  - destruct fuel as [|fuel']; [simpl in Hu; lia |].
    destruct (IH (u / 10) (String (Str.chr (48 + u mod 10)) acc)) as
      (c & pre & Heq & Hc & Hcm & Hcp & Hread).
    { lia. }
    { split; [apply Z.div_pos; lia |].
      apply Z.div_lt_upper_bound; [lia |].
      rewrite <- Z.pow_succ_r, <- Nat2Z.inj_succ by lia. apply Hu. }
    exists c, (pre +:+ String (Str.chr (48 + u mod 10)) EmptyString).
    rewrite Heq. split; [by rewrite append_assoc |]. repeat (split; [done |]).
    intros rest a. rewrite append_assoc, append_cons.
    change (EmptyString +:+ rest) with rest.
    rewrite Hread. cbn [strconv.digits_value]. rewrite Hdig, Hval.
    f_equal. rewrite len_append. change (Str.len (String _ EmptyString)) with 1.
    assert (0 <= Str.len pre) by (unfold Str.len; lia).
    replace (1 + (Str.len pre + 1)) with (Z.succ (1 + Str.len pre)) by lia.
    rewrite Z.pow_succ_r by lia.
    rewrite (Z.div_mod u 10) at 3 by lia. ring.
Qed.

Lemma Atoi_digits u :
  0 <= u < 10 ^ 20 ->
  exists c s,
    strconv.digits 20 u EmptyString = String c s /\
    Ascii.eqb c "-" = false /\ Ascii.eqb c "+" = false /\
    strconv.digits_value (String c s) 0 = Some u.
Proof.
  intros Hu.
  destruct (digits_read 20 u EmptyString) as (c & pre & Heq & _ & Hm & Hp & Hread);
    [lia | done |].
  exists c, (pre +:+ EmptyString). repeat (split; [done |]).
  rewrite Hread. cbn [strconv.digits_value]. by rewrite Z.mul_0_l.
Qed.

(** What [Itoa] prints, [Atoi] reads back. *)
Lemma Atoi_Itoa i :
  strconv.MinInt <= i <= strconv.MaxInt -> strconv.Atoi (strconv.Itoa i) = (i, None).
Proof.
  unfold strconv.MinInt, strconv.MaxInt. intros Hi.
  unfold strconv.Itoa, strconv.Atoi.
  destruct (Z.ltb_spec i 0) as [Hneg | Hpos].
  - destruct (Atoi_digits (- i)) as (c & s & Heq & _ & _ & Hval); [lia |].
    change (Ascii.eqb "-" "-") with true. cbv iota.
    rewrite Heq, Hval.
    unfold strconv.MinInt.
    destruct (Z.ltb_spec (- - 2 ^ 63) (- i)); [lia |]. f_equal. lia.
  - destruct (Atoi_digits i) as (c & s & Heq & Hm & Hp & Hval); [lia |].
    rewrite Heq, Hm, Hp, Hval.
    unfold strconv.MaxInt.
    destruct (Z.ltb_spec (2 ^ 63 - 1) i); [lia | done].
Qed.

End Decimal.

(** ** Paths of the cache *)

Section Paths.

Lemma Join_not_empty dir name : String.eqb (filepath_Join dir name) EmptyString = false.
Proof. unfold filepath_Join. by destruct dir. Qed.

Lemma Join_suffix_inj dir stem x y :
  filepath_Join dir (stem +:+ x) = filepath_Join dir (stem +:+ y) -> x = y.
Proof.
  unfold filepath_Join. intros H.
  by repeat apply String.app_inj in H.
Qed.

(** The four files of a fingerprint have four names. *)
Lemma paths_distinct (command : list string) (cacheTimeout : float64) (w : World) :
  let cc := NewCommandCache command cacheTimeout w in
  OutputCache cc <> ExitFile cc /\ OutputCache cc <> lock_path command w /\
  ExitFile cc <> lock_path command w /\ CmdFile cc <> OutputCache cc /\
  CmdFile cc <> ExitFile cc /\ CmdFile cc <> lock_path command w.
Proof.
  unfold lock_path, NewCommandCache; simpl.
  repeat split; intros H; apply Join_suffix_inj in H; discriminate.
Qed.

End Paths.

(** ** The orchestrator *)

#[global] Arguments strconv.Itoa : simpl never.
#[global] Arguments strconv.Atoi : simpl never.
#[global] Arguments Str.line : simpl never.
#[global] Arguments os.text : simpl never.
#[global] Arguments ConstructBashCommand : simpl never.

(** Projections of a world that was built by the operations above. *)
Ltac world_simpl :=
  cbn [files denied alive clock pid tmpDir seed verbose stdout stderr spawned
       with_disk with_clock with_stdout with_stderr with_spawned
       os.print os.eprint fst snd world_of] in *.

Section Disk.

Lemma Create_ok path w :
  path ∉ denied w ->
  os.Create path w
  = (None, with_disk (<[path := mkFile EmptyString (clock w)]> (files w)) w).
Proof. intros H. unfold os.Create. by rewrite bool_decide_eq_false_2. Qed.

Lemma Create_denied path w :
  path ∈ denied w -> os.Create path w = (Some os.EACCES, w).
Proof. intros H. unfold os.Create. by rewrite bool_decide_eq_true_2. Qed.

Lemma Stat_ok path w :
  path ∉ denied w ->
  os.Stat path w
  = match files w !! path with Some f => inr f | None => inl os.ENOENT end.
Proof. intros H. unfold os.Stat. by rewrite bool_decide_eq_false_2. Qed.

(** Writing to a file that was just created. *)
Lemma WriteString_lookup path s w t :
  files w !! path = Some (mkFile EmptyString t) ->
  (exists t', files (os.WriteString path s w) !! path = Some (mkFile s t')) /\
  (forall q, q <> path -> files (os.WriteString path s w) !! q = files w !! q).
Proof.
  intros Hnew. destruct s as [|c s]; cbn [os.WriteString].
  - split; [by exists t | done].
  - world_simpl. split.
    + exists (clock w). by rewrite lookup_alter_eq, Hnew.
    + intros q Hq. by rewrite lookup_alter_ne.
Qed.

Lemma WriteString_verbose path s w : verbose (os.WriteString path s w) = verbose w.
Proof. by destruct s. Qed.

Lemma Remove_lookup path w :
  path ∉ denied w ->
  files (os.Remove path w) !! path = None /\
  (forall q, q <> path -> files (os.Remove path w) !! q = files w !! q).
Proof.
  intros H. unfold os.Remove. rewrite bool_decide_eq_false_2 by done. world_simpl.
  split; [apply lookup_delete_eq |]. intros q Hq. by rewrite lookup_delete_ne.
Qed.

End Disk.

Section Orchestrator.

Context (sys : System).

Lemma not_appended {A} (l : list A) (x : A) : l <> l ++ [x].
Proof.
  intros H. apply (f_equal length) in H. rewrite length_app in H. simpl in H. lia.
Qed.

(** What acquiring the guard leaves alone, and what a lock file obtained
    tells. *)
Lemma CreatePidFile_spec command w pidFile wl :
  CreatePidFile sys command w = (pidFile, wl) ->
  spawned wl = spawned w /\ tmpDir wl = tmpDir w /\ stdout wl = stdout w /\
  ((String.eqb pidFile EmptyString = false) ->
   pidFile = lock_path command w /\ (pidFile ∉ denied wl) /\ stderr wl = stderr w).
Proof.
  rewrite CreatePidFile_unfold. cbv zeta. unfold waitForPreviousCommand.
  fold (lock_path command w). set (p := lock_path command w).
  destruct (wait_turns_log sys (Z.to_nat maxWaitPrevSec) p w) as (Hout & Herr & Hsp & Htmp).
  destruct (wait_turns sys _ p w) as [[] w'] eqn:Hwait; simpl in *.
  - unfold os.Create. case_bool_decide as Hden; simpl.
    + intros [= <- <-]. simpl. done.
    + intros [= <- <-].
      destruct (WriteString_frame p (strconv.Itoa (pid w'))
                  (with_disk (<[p:=mkFile EmptyString (clock w')]> (files w')) w'))
        as (_ & -> & -> & -> & -> & ->). simpl. done.
  - intros [= <- <-]. done.
Qed.

Lemma after_copy_facts cache argv r w :
  OutputCache cache ∉ denied w ->
  let w1 := after_copy cache argv r w in
  tmpDir w1 = tmpDir w /\ denied w1 = denied w /\ verbose w1 = verbose w /\
  spawned w1 = spawned w ++ [(argv, Some r)] /\
  stdout w1 = match copyError r with
              | Some e => (stdout w +:+ piped r)
                          +:+ Str.line ("Error copying to writers: " +:+ e)
              | None => stdout w +:+ piped r
              end /\
  stderr w1 = stderr w +:+ diverted r /\
  (exists f, files w1 !! OutputCache cache = Some f /\ data f = piped r) /\
  (forall q, q <> OutputCache cache -> files w1 !! q = files w !! q).
Proof.
  intros Hblob w1. subst w1. unfold after_copy.
  rewrite (Create_ok _ _ Hblob). cbv zeta. cbn [snd].
  set (wc := with_disk _ w).
  set (wp := os.print _ _).
  assert (files wp !! OutputCache cache = Some (mkFile EmptyString (clock w))) as Hnew
    by (subst wp wc; world_simpl; apply lookup_insert_eq).
  destruct (WriteString_lookup _ (piped r) wp _ Hnew) as [[t Hf] Hrest].
  destruct (report_copy_frame r (os.WriteString (OutputCache cache) (piped r) wp))
    as (_ & -> & -> & -> & -> & -> & -> & ->).
  destruct (WriteString_frame (OutputCache cache) (piped r) wp)
    as (_ & -> & -> & -> & -> & ->).
  rewrite WriteString_verbose.
  repeat (split; [done |]).
  split; [by exists (mkFile (piped r) t) |].
  intros q Hq. rewrite Hrest by done.
  subst wp wc. world_simpl. by rewrite lookup_insert_ne.
Qed.

Lemma after_failure_facts cache argv r code w :
  OutputCache cache ∉ denied w -> ExitFile cache ∉ denied w ->
  OutputCache cache <> ExitFile cache ->
  let w1 := after_failure cache argv r code w in
  tmpDir w1 = tmpDir w /\ denied w1 = denied w /\ verbose w1 = verbose w /\
  spawned w1 = spawned w ++ [(argv, Some r)] /\
  (exists f, files w1 !! OutputCache cache = Some f /\ data f = piped r) /\
  (exists g, files w1 !! ExitFile cache = Some g /\ data g = strconv.Itoa code) /\
  (forall q, q <> OutputCache cache -> q <> ExitFile cache ->
             files w1 !! q = files w !! q).
Proof.
  intros Hblob Hexit Hne w1. subst w1. unfold after_failure. cbv zeta.
  destruct (after_copy_facts cache argv r w Hblob)
    as (Htmp & Hden & Hverb & Hsp & _ & _ & (f & Hf & Hfd) & Hrest).
  set (wr := after_copy cache argv r w) in *.
  assert (ExitFile cache ∉ denied wr) as Hexit' by (by rewrite Hden).
  rewrite (Create_ok _ _ Hexit'). cbn [snd].
  set (we := with_disk _ wr).
  assert (files we !! ExitFile cache = Some (mkFile EmptyString (clock wr))) as Hnew
    by (subst we; world_simpl; apply lookup_insert_eq).
  destruct (WriteString_lookup _ (strconv.Itoa code) we _ Hnew) as [[t Hg] Hrest'].
  destruct (WriteString_frame (ExitFile cache) (strconv.Itoa code) we)
    as (_ & _ & _ & -> & -> & ->).
  rewrite WriteString_verbose.
  subst we. world_simpl.
  repeat (split; [done |]).
  split; [| split].
  - exists f. split; [| done].
    rewrite Hrest' by done. world_simpl. by rewrite lookup_insert_ne.
  - by exists (mkFile (strconv.Itoa code) t).
  - intros q Hq1 Hq2. rewrite Hrest' by done. world_simpl.
    rewrite lookup_insert_ne by done. by apply Hrest.
Qed.

(** How [ExecuteCommand] ends when it returns after a child that started. *)
Lemma ExecuteCommand_ran command cache w code w1 argv r :
  ExecuteCommand sys command cache w = Returns code w1 ->
  spawned w1 = spawned w ++ [(argv, Some r)] ->
  (exists script, ConstructBashCommand command = inl script /\
                  argv = ["bash"; "-i"; "-c"; script]) /\
  (OutputCache cache ∉ denied w) /\
  match waited r with
  | WaitOk => code = 0 /\ w1 = after_copy cache argv r w
  | WaitFailed => code = 1 /\ w1 = after_copy cache argv r w
  | ExitError st =>
      if bool_decide (ExitFile cache ∈ denied w)
      then code = 1 /\ files w1 = files (after_copy cache argv r w)
      else code = ExitCode st /\ w1 = after_failure cache argv r code w
  end.
Proof.
  intros Hrun Hlog. unfold ExecuteCommand in Hrun.
  destruct (ConstructBashCommand command) as [script | msg]; [| discriminate].
  destruct (decide (OutputCache cache ∈ denied w)) as [Hden | Hok].
  { rewrite (Create_denied _ _ Hden) in Hrun. injection Hrun as <- <-.
    world_simpl. by apply not_appended in Hlog. }
  pose proof (fun r' => after_copy_facts cache ["bash"; "-i"; "-c"; script] r' w Hok)
    as Hfacts.
  unfold after_failure, after_copy in *.
  rewrite (Create_ok _ _ Hok) in *. cbn [snd] in *.
  set (argv' := ["bash"; "-i"; "-c"; script]) in *.
  set (wc := with_disk _ w) in *.
  destruct (exec sys argv' wc) as [r' |] eqn:Hchild; cycle 1.
  { injection Hrun as <- <-. world_simpl.
    apply app_inj_tail in Hlog as [_ [=]]. }
  cbv zeta in Hrun. specialize (Hfacts r').
  destruct Hfacts as (_ & Hdr & _ & Hwr & _). cbv zeta in Hdr, Hwr.
  set (wr := report_copy r' _) in *.
  assert (forall s x, spawned (os.WriteString (ExitFile cache) s x) = spawned x) as Hws
    by (intros s x; apply (WriteString_frame (ExitFile cache) s x)).
  assert (argv' = argv /\ r' = r) as [<- <-].
  { destruct (waited r') as [| st |].
    - injection Hrun as <- <-. rewrite Hwr in Hlog.
      by apply app_inj_tail in Hlog as [_ [= <- <-]].
    - unfold os.Create in Hrun. case_bool_decide; injection Hrun as <- <-;
        rewrite ?Hws in Hlog; world_simpl; rewrite Hwr in Hlog;
        by apply app_inj_tail in Hlog as [_ [= <- <-]].
    - injection Hrun as <- <-. rewrite Hwr in Hlog.
      by apply app_inj_tail in Hlog as [_ [= <- <-]]. }
  split; [by exists script |]. split; [done |].
  destruct (waited r') as [| st |].
  - by injection Hrun as <- <-.
  - case_bool_decide as Hexit.
    + assert (ExitFile cache ∈ denied wr) as Hexit' by (by rewrite Hdr).
      rewrite (Create_denied _ _ Hexit') in Hrun.
      by injection Hrun as <- <-.
    + assert (ExitFile cache ∉ denied wr) as Hexit' by (by rewrite Hdr).
      rewrite (Create_ok _ _ Hexit') in Hrun. injection Hrun as <- <-.
      split; [done |]. fold wr. by rewrite (Create_ok _ _ Hexit').
  - by injection Hrun as <- <-.
Qed.

Lemma ExecuteCommand_failed_run command cache w code w1 argv r st :
  ExecuteCommand sys command cache w = Returns code w1 ->
  spawned w1 = spawned w ++ [(argv, Some r)] ->
  waited r = ExitError st ->
  ExitFile cache ∉ denied w ->
  code = ExitCode st /\
  (exists script, ConstructBashCommand command = inl script /\
                  argv = ["bash"; "-i"; "-c"; script]) /\
  (OutputCache cache ∉ denied w) /\
  w1 = after_failure cache argv r code w.
Proof.
  intros Hrun Hlog Hwait Hexit.
  destruct (ExecuteCommand_ran command cache w code w1 argv r Hrun Hlog)
    as (Hscript & Hblob & Hend).
  rewrite Hwait, bool_decide_eq_false_2 in Hend by done.
  by destruct Hend.
Qed.

(** Once the cache file is created a child is started, whatever happens
    next. *)
Lemma ExecuteCommand_log command cache w script :
  ConstructBashCommand command = inl script ->
  OutputCache cache ∉ denied w ->
  exists child code w1,
    ExecuteCommand sys command cache w = Returns code w1 /\
    spawned w1 = spawned w ++ [(["bash"; "-i"; "-c"; script], child)] /\
    denied w1 = denied w.
Proof.
  intros Hparse Hblob. unfold ExecuteCommand.
  rewrite Hparse, (Create_ok _ _ Hblob).
  set (argv := ["bash"; "-i"; "-c"; script]). set (wc := with_disk _ w).
  exists (exec sys argv wc).
  destruct (exec sys argv wc) as [r |]; [| by eexists _, _].
  cbv zeta.
  set (wr := report_copy r _).
  assert (spawned wr = spawned w ++ [(argv, Some r)] /\ denied wr = denied w)
    as [Hwr Hdr].
  { subst wr. match goal with |- context [report_copy r ?x] =>
      destruct (report_copy_frame r x) as (_ & _ & -> & _ & -> & _) end.
    match goal with |- context [os.WriteString ?p ?s ?x] =>
      destruct (WriteString_frame p s x) as (_ & _ & _ & -> & _ & ->) end.
    done. }
  destruct (waited r) as [| st |]; [by eexists _, _ | | by eexists _, _].
  destruct (decide (ExitFile cache ∈ denied wr)) as [Hden | Hok].
  - rewrite (Create_denied _ _ Hden). by eexists _, _.
  - rewrite (Create_ok _ _ Hok). eexists _, _. split; [done |].
    match goal with |- context [os.WriteString ?p ?s ?x] =>
      destruct (WriteString_frame p s x) as (_ & _ & _ & -> & _ & ->) end.
    done.
Qed.

Lemma acquire_free command w :
  files w !! lock_path command w = None ->
  lock_path command w ∉ denied w ->
  CreatePidFile sys command w = (lock_path command w, locked command w).
Proof.
  intros Hfree Hok. rewrite CreatePidFile_unfold. cbv zeta.
  fold (lock_path command w). unfold waitForPreviousCommand, locked.
  change (Z.to_nat maxWaitPrevSec) with 5%nat. cbn [wait_turns].
  rewrite (Stat_ok _ _ Hok), Hfree. cbn [os.IsNotExist].
  by rewrite (Create_ok _ _ Hok).
Qed.

Lemma locked_frame command w :
  lock_path command w ∉ denied w ->
  let wl := locked command w in
  clock wl = clock w /\ stdout wl = stdout w /\ stderr wl = stderr w /\
  spawned wl = spawned w /\ tmpDir wl = tmpDir w /\ denied wl = denied w /\
  verbose wl = verbose w /\
  forall q, q <> lock_path command w -> files wl !! q = files w !! q.
Proof.
  intros Hok wl. subst wl. unfold locked. cbv zeta.
  rewrite (Create_ok _ _ Hok). cbn [snd].
  set (p := lock_path command w). set (wc := with_disk _ w).
  destruct (WriteString_frame p (strconv.Itoa (pid w)) wc) as (-> & -> & -> & -> & -> & ->).
  rewrite WriteString_verbose.
  repeat (split; [done |]).
  intros q Hq.
  destruct (WriteString_lookup p (strconv.Itoa (pid w)) wc (clock w)) as [_ Hother];
    [apply lookup_insert_eq |].
  rewrite Hother by done.
  subst wc. world_simpl. by rewrite lookup_insert_ne.
Qed.

Lemma lock_path_not_empty command w :
  String.eqb (lock_path command w) EmptyString = false.
Proof. apply Join_not_empty. Qed.

Lemma NewCommandCache_tmpDir command cacheTimeout w w' :
  tmpDir w' = tmpDir w ->
  NewCommandCache command cacheTimeout w' = NewCommandCache command cacheTimeout w.
Proof. intros H. unfold NewCommandCache, getCacheDir. by rewrite H. Qed.

(** A call that finds the guard free and a fresh entry replays the entry. *)
Lemma RunCached_replay command cacheTimeout cacheOnError cacheOnAbort w f g :
  let cc := NewCommandCache command cacheTimeout w in
  let p := lock_path command w in
  files w !! p = None -> p ∉ denied w ->
  OutputCache cc ∉ denied w -> files w !! OutputCache cc = Some f ->
  float64_le (seconds_since (modTime f) w) cacheTimeout = true ->
  ExitFile cc ∉ denied w -> files w !! ExitFile cc = Some g ->
  exists w',
    RunCached sys command cacheTimeout cacheOnError cacheOnAbort w
    = Returns (fst (strconv.Atoi (data g))) w' /\
    stdout w' = (if verbose w then stdout w +:+ Str.line "Returning cached result"
                 else stdout w) +:+ data f /\
    stderr w' = stderr w /\ spawned w' = spawned w.
Proof.
  intros cc p Hfree Hp Hblob Hf Hfresh Hexit Hg.
  destruct (paths_distinct command cacheTimeout w) as (Hde & Hdl & Hel & _).
  fold cc p in Hde, Hdl, Hel.
  destruct (locked_frame command w Hp)
    as (Hclock & Hout & Herr & Hsp & Htmp & Hden & Hverb & Hfiles).
  fold p in Hfiles.
  unfold RunCached. rewrite (acquire_free command w Hfree Hp). fold p.
  set (wl := locked command w) in *.
  subst p. rewrite lock_path_not_empty. set (p := lock_path command w) in *.
  rewrite (NewCommandCache_tmpDir _ _ _ _ Htmp). fold cc.
  assert (os.Stat (OutputCache cc) wl = inr f) as Hstat.
  { rewrite Stat_ok by (by rewrite Hden). by rewrite Hfiles, Hf. }
  assert (IsValid cc wl = true) as ->.
  { unfold IsValid. rewrite Hstat. unfold seconds_since, time_Since in *.
    by rewrite Hclock. }
  rewrite Hverb.
  set (wv := if verbose w then os.print _ wl else wl).
  assert (files wv = files wl /\ denied wv = denied wl /\ stderr wv = stderr wl
          /\ spawned wv = spawned wl
          /\ stdout wv = if verbose w then stdout w +:+ Str.line "Returning cached result"
                         else stdout w)
    as (Hvf & Hvd & Hve & Hvs & Hvo).
  { subst wv. destruct (verbose w); world_simpl; by rewrite ?Hout. }
  assert (os.Stat (OutputCache cc) wv = inr f) as Hstat'.
  { unfold os.Stat in *. by rewrite Hvf, Hvd. }
  unfold sendTextToStdout, readFileOrDefault, os.ReadFile. rewrite Hstat'. cbn [snd].
  assert (os.Stat (ExitFile cc) (os.print (data f) wv) = inr g) as ->.
  { rewrite Stat_ok by (world_simpl; by rewrite Hvd, Hden).
    world_simpl. by rewrite Hvf, Hfiles, Hg. }
  cbn [defer]. eexists. split; [reflexivity |].
  destruct (Remove_frame p (os.print (data f) wv)) as (_ & -> & -> & -> & _).
  world_simpl. by rewrite Hvo, Hve, Hvs, Herr, Hsp.
Qed.

(** A call that finds the guard free and no output blob starts the
    command. *)
Lemma RunCached_miss command cacheTimeout cacheOnError cacheOnAbort w script :
  let cc := NewCommandCache command cacheTimeout w in
  let p := lock_path command w in
  files w !! p = None -> p ∉ denied w ->
  OutputCache cc ∉ denied w -> files w !! OutputCache cc = None ->
  ConstructBashCommand command = inl script ->
  exists child,
    spawned (world_of (RunCached sys command cacheTimeout cacheOnError cacheOnAbort w))
    = spawned w ++ [(["bash"; "-i"; "-c"; script], child)].
Proof.
  intros cc p Hfree Hp Hblob Hnone Hparse.
  destruct (paths_distinct command cacheTimeout w) as (Hde & Hdl & Hel & _).
  fold cc p in Hde, Hdl, Hel.
  destruct (locked_frame command w Hp)
    as (Hclock & Hout & Herr & Hsp & Htmp & Hden & Hverb & Hfiles).
  fold p in Hfiles.
  unfold RunCached. rewrite (acquire_free command w Hfree Hp). fold p.
  set (wl := locked command w) in *.
  subst p. rewrite lock_path_not_empty. set (p := lock_path command w) in *.
  rewrite (NewCommandCache_tmpDir _ _ _ _ Htmp). fold cc.
  assert (IsValid cc wl = false) as ->.
  { unfold IsValid. rewrite Stat_ok by (by rewrite Hden). by rewrite Hfiles, Hnone. }
  rewrite Hverb.
  set (wv := if verbose w then os.print _ wl else wl).
  assert (denied wv = denied wl /\ spawned wv = spawned wl) as (Hvd & Hvs)
    by (subst wv; by destruct (verbose w)).
  destruct (ExecuteCommand_log command cc wv script Hparse)
    as (child & code & w1 & -> & Hlog & Hd1); [by rewrite Hvd, Hden |].
  exists child. cbn [defer world_of].
  destruct (Remove_frame p (if negb (code =? 0) && negb cacheOnError
                            then Invalidate cc w1 else w1)) as (_ & _ & _ & -> & _).
  destruct (negb (code =? 0) && negb cacheOnError).
  - unfold Invalidate. destruct (Remove_frame (OutputCache cc) w1) as (_ & _ & _ & -> & _).
    by rewrite Hlog, Hvs, Hsp.
  - by rewrite Hlog, Hvs, Hsp.
Qed.

Lemma ExecuteCommand_denied command cache w :
  denied (world_of (ExecuteCommand sys command cache w)) = denied w.
Proof.
  unfold ExecuteCommand, log_Fatal.
  destruct (ConstructBashCommand command) as [script | msg]; [| done].
  destruct (decide (OutputCache cache ∈ denied w)) as [Hden | Hok].
  { by rewrite (Create_denied _ _ Hden). }
  rewrite (Create_ok _ _ Hok).
  destruct (exec sys _ _) as [r |]; [| done]. cbv zeta.
  set (wr := report_copy r _).
  assert (denied wr = denied w) as Hdr.
  { subst wr. match goal with |- context [report_copy r ?x] =>
      destruct (report_copy_frame r x) as (_ & _ & _ & _ & -> & _) end.
    match goal with |- context [os.WriteString ?p ?s ?x] =>
      destruct (WriteString_frame p s x) as (_ & _ & _ & _ & _ & ->) end.
    done. }
  destruct (waited r) as [| st |]; [done | | done].
  destruct (decide (ExitFile cache ∈ denied wr)) as [Hden | Hok'].
  - by rewrite (Create_denied _ _ Hden).
  - rewrite (Create_ok _ _ Hok'). cbn [world_of].
    match goal with |- context [os.WriteString ?p ?s ?x] =>
      destruct (WriteString_frame p s x) as (_ & _ & _ & _ & _ & ->) end.
    done.
Qed.

(** An invocation that started the command took the guard, found no valid
    entry, and ended through [ExecuteCommand], the invalidation and the
    release of the guard. *)
Lemma RunCached_executed command cacheTimeout cacheOnError cacheOnAbort
    w code w1 argv r :
  RunCached sys command cacheTimeout cacheOnError cacheOnAbort w = Returns code w1 ->
  spawned w1 = spawned w ++ [(argv, Some r)] ->
  let cc := NewCommandCache command cacheTimeout w in
  let p := lock_path command w in
  let wl := snd (CreatePidFile sys command w) in
  let wv := if verbose wl then os.print (Str.line "Executing command") wl else wl in
  fst (CreatePidFile sys command w) = p /\ (p ∉ denied wl) /\
  tmpDir wl = tmpDir w /\ spawned wl = spawned w /\
  exists w1',
    ExecuteCommand sys command cc wv = Returns code w1' /\
    spawned w1' = spawned wv ++ [(argv, Some r)] /\
    w1 = os.Remove p (if negb (code =? 0) && negb cacheOnError
                      then Invalidate cc w1' else w1').
Proof.
  intros Hrun Hlog cc p wl wv. subst wl wv.
  unfold RunCached in Hrun.
  destruct (CreatePidFile sys command w) as [pidFile wl] eqn:Hlock.
  apply CreatePidFile_spec in Hlock as (Hsp & Htmp & Hout & Hgot).
  destruct (String.eqb pidFile EmptyString) eqn:Hempty.
  { injection Hrun as <- <-. world_simpl. rewrite Hsp in Hlog.
    by apply not_appended in Hlog. }
  destruct Hgot as (-> & Hlden & Herr); [done |].
  fold p in Hrun, Hlden. cbn [fst snd].
  rewrite (NewCommandCache_tmpDir _ _ _ _ Htmp) in Hrun. fold cc in Hrun.
  destruct (IsValid cc wl).
  { cbn [defer] in Hrun. cbv zeta in Hrun. injection Hrun as <- <-.
    match type of Hlog with spawned (os.Remove ?p ?x) = _ =>
      destruct (Remove_frame p x) as (_ & _ & _ & Hrm & _) end.
    rewrite Hrm in Hlog. unfold sendTextToStdout in Hlog.
    destruct (os.ReadFile _ _), (verbose wl); world_simpl;
      rewrite Hsp in Hlog; by apply not_appended in Hlog. }
  cbv zeta in Hrun.
  set (wv := if verbose wl then os.print _ wl else wl) in *.
  assert (spawned wv = spawned wl) as Hvs by (subst wv; by destruct (verbose wl)).
  destruct (ExecuteCommand sys command cc wv) as [rc w1' |] eqn:Hexec; [| discriminate].
  cbn [defer] in Hrun. injection Hrun as <- <-.
  repeat (split; [done |]). exists w1'. split; [done |]. split; [| done].
  set (wi := if negb (rc =? 0) && negb cacheOnError then Invalidate cc w1' else w1') in *.
  assert (spawned wi = spawned w1') as His.
  { subst wi. destruct (negb (rc =? 0) && negb cacheOnError); [| done].
    unfold Invalidate. by destruct (Remove_frame (OutputCache cc) w1')
      as (_ & _ & _ & -> & _). }
  destruct (Remove_frame p wi) as (_ & _ & _ & Hrs & _).
  by rewrite Hrs, His, <- Hsp, <- Hvs in Hlog.
Qed.

(** An invocation that ran the command and saw it fail. *)
Lemma RunCached_failed_run command cacheTimeout cacheOnError cacheOnAbort
    w code w1 argv r st :
  RunCached sys command cacheTimeout cacheOnError cacheOnAbort w = Returns code w1 ->
  spawned w1 = spawned w ++ [(argv, Some r)] ->
  waited r = ExitError st ->
  let cc := NewCommandCache command cacheTimeout w in
  ExitFile cc ∉ denied w1 ->
  code = ExitCode st /\
  (exists script, ConstructBashCommand command = inl script /\
                  argv = ["bash"; "-i"; "-c"; script]) /\
  tmpDir w1 = tmpDir w /\
  (lock_path command w ∉ denied w1) /\ (OutputCache cc ∉ denied w1) /\
  files w1 !! lock_path command w = None /\
  (exists g, files w1 !! ExitFile cc = Some g /\ data g = strconv.Itoa code) /\
  if negb (code =? 0) && negb cacheOnError
  then files w1 !! OutputCache cc = None
  else exists f, files w1 !! OutputCache cc = Some f /\ data f = piped r.
Proof.
  intros Hrun Hlog Hwait cc Hexit.
  destruct (paths_distinct command cacheTimeout w) as (Hde & Hdl & Hel & _).
  fold cc in Hde, Hdl, Hel.
  destruct (RunCached_executed _ _ _ _ _ _ _ _ _ Hrun Hlog)
    as (_ & Hlden & Htmp & Hsp & w1' & Hexec & Hlog' & ->).
  fold cc in Hexec, Hexit |- *. set (p := lock_path command w) in *.
  set (wl := snd (CreatePidFile sys command w)) in *.
  set (wv := if verbose wl then os.print _ wl else wl) in *.
  assert (denied wv = denied wl /\ tmpDir wv = tmpDir wl) as (Hvd & Hvt)
    by (subst wv; by destruct (verbose wl)).
  pose proof (ExecuteCommand_denied command cc wv) as Hden.
  rewrite Hexec in Hden. cbn [world_of] in Hden.
  set (wi := if negb (code =? 0) && negb cacheOnError then Invalidate cc w1' else w1') in *.
  assert (denied wi = denied w1' /\ tmpDir wi = tmpDir w1') as (Hid & Hit).
  { subst wi. destruct (negb (code =? 0) && negb cacheOnError); [| done].
    unfold Invalidate. by destruct (Remove_frame (OutputCache cc) w1')
      as (_ & _ & _ & _ & -> & ->). }
  destruct (Remove_frame p wi) as (_ & _ & _ & _ & Hrt & Hrd).
  rewrite Hrd, Hid, Hden in Hexit.
  destruct (ExecuteCommand_failed_run command cc wv code w1' argv r st Hexec Hlog' Hwait Hexit)
    as (-> & Hscript & Hblob & ->).
  destruct (after_failure_facts cc argv r (ExitCode st) wv Hblob Hexit Hde)
    as (Hat & Had & _ & _ & (f & Hf & Hfd) & (g & Hg & Hgd) & _).
  set (w1' := after_failure cc argv r (ExitCode st) wv) in *.
  assert (p ∉ denied wi) as Hpi by (by rewrite Hid, Hden, Hvd).
  destruct (Remove_lookup p wi Hpi) as [Hgone Hkept].
  rewrite Hrt, Hit, Hat, Hvt, Htmp, Hrd, Hid, Hden, Hvd, <- Hvd.
  split; [done |]. split; [done |]. split; [done |].
  split; [by rewrite Hvd |]. split; [done |]. split; [done |].
  rewrite !Hkept by done. subst wi.
  destruct (negb (ExitCode st =? 0) && negb cacheOnError).
  - unfold Invalidate.
    destruct (Remove_lookup (OutputCache cc) w1') as [Hnone Hrest];
      [by rewrite Hden |].
    rewrite Hnone, Hrest by done. split; [by exists g | done].
  - split; [by exists g | by exists f].
Qed.

End Orchestrator.

(** C6: take an invocation that ran the command (the log of children started
    grew by one child, [r]) and saw it end with an exit code that is not zero,
    the exit record being writable.  The invocation returns that code.
    Without "cache on error" the output blob is gone and a later call,
    whenever it comes, starts the command again; with "cache on error" the
    blob and the exit record stay, and a later call inside the timeout window
    returns the same code and prints the same output without starting
    anything. *)
Theorem cache_on_error_policy (sys : System) (command : list string) (cacheTimeout : float64)
    (cacheOnError cacheOnAbort : bool) (w w1 : World) (code : Z)
    (argv : list string) (r : Run) (st : ProcessState) :
  RunCached sys command cacheTimeout cacheOnError cacheOnAbort w = Returns code w1 ->
  spawned w1 = spawned w ++ [(argv, Some r)] ->
  waited r = ExitError st ->
  ExitCode st <> 0 ->
  strconv.MinInt <= ExitCode st <= strconv.MaxInt ->
  let cc := NewCommandCache command cacheTimeout w in
  ExitFile cc ∉ denied w1 ->
  code = ExitCode st /\
  if cacheOnError then
    exists blob,
      files w1 !! OutputCache cc = Some blob /\ data blob = piped r /\
      forall (t : Z) (timeout' : float64) (e' a' : bool),
        float64_le (seconds_since (modTime blob) (with_clock t w1)) timeout' = true ->
        exists w2,
          RunCached sys command timeout' e' a' (with_clock t w1) = Returns code w2 /\
          stdout w2 = (if verbose w1
                       then stdout w1 +:+ Str.line "Returning cached result"
                       else stdout w1) +:+ piped r /\
          spawned w2 = spawned w1
  else
    files w1 !! OutputCache cc = None /\
    forall (t : Z) (timeout' : float64) (e' a' : bool),
      exists child,
        spawned (world_of (RunCached sys command timeout' e' a' (with_clock t w1)))
        = spawned w1 ++ [(argv, child)].
Proof.
  intros Hrun Hlog Hwait Hcode Hint cc Hexit.
  destruct (RunCached_failed_run sys command cacheTimeout cacheOnError cacheOnAbort
              w code w1 argv r st Hrun Hlog Hwait Hexit)
    as (-> & (script & Hparse & ->) & Htmp & Hpd & Hbd & Hfree & (g & Hg & Hgd) & Hblob).
  fold cc in Hbd, Hg, Hblob. split; [done |].
  assert (forall t, lock_path command (with_clock t w1) = lock_path command w) as Hp
    by (intros t; unfold lock_path, getCacheDir; world_simpl; by rewrite Htmp).
  assert (forall t timeout',
            OutputCache (NewCommandCache command timeout' (with_clock t w1)) = OutputCache cc
            /\ ExitFile (NewCommandCache command timeout' (with_clock t w1)) = ExitFile cc)
    as Hpaths
    by (intros t timeout'; unfold cc, NewCommandCache, getCacheDir; world_simpl;
        by rewrite Htmp).
  replace (ExitCode st =? 0) with false in Hblob by (symmetry; by apply Z.eqb_neq).
  destruct cacheOnError; cbn [negb andb] in Hblob.
  - destruct Hblob as (f & Hf & Hfd). exists f. split; [done |]. split; [done |].
    intros t timeout' e' a' Hfresh.
    destruct (Hpaths t timeout') as [Hout' Hexit'].
    destruct (RunCached_replay sys command timeout' e' a' (with_clock t w1) f g)
      as (w2 & Hrun2 & Hout2 & _ & Hsp2).
    + by rewrite Hp.
    + by rewrite Hp.
    + by rewrite Hout'.
    + by rewrite Hout'.
    + done.
    + by rewrite Hexit'.
    + by rewrite Hexit'.
    + exists w2. rewrite Hrun2, Hgd, (Atoi_Itoa _ Hint), Hout2, Hfd. done.
  - split; [done |]. intros t timeout' e' a'.
    destruct (Hpaths t timeout') as [Hout' Hexit'].
    change (spawned w1) with (spawned (with_clock t w1)).
    apply RunCached_miss; rewrite ?Hp, ?Hout'; done.
Qed.

(** C6 on a sample: a failing command, called twice within the window: with
    "cache on error" the second call replays code 3, without it the command
    is started a second time. *)
Lemma cache_on_error_policy_sample :
  (exists w2,
     RunCached Failing.sys Failing.command 20 true false
       (with_clock (6 * Second) Failing.kept) = Returns 3 w2 /\
     spawned w2 = spawned Failing.kept) /\
  (exists child,
     spawned (world_of (RunCached Failing.sys Failing.command 20 false false
                          (with_clock (6 * Second) Failing.dropped)))
     = spawned Failing.dropped ++ [(Failing.argv, child)]).
Proof.
  split.
  - destruct (cache_on_error_policy Failing.sys Failing.command 20 true false
                Sample.fresh Failing.kept 3 Failing.argv Failing.run (Exited 3))
      as (_ & blob & Hblob & _ & Hnext);
      [by vm_compute | by vm_compute | done | done | by vm_compute
      | vm_compute; set_solver |].
    vm_compute in Hblob. injection Hblob as <-.
    destruct (Hnext (6 * Second) 20 true false) as (w2 & Hrun & _ & Hsp);
      [by vm_compute |].
    exists w2. exact (conj Hrun Hsp).
  - destruct (cache_on_error_policy Failing.sys Failing.command 20 false false
                Sample.fresh Failing.dropped 3 Failing.argv Failing.run (Exited 3))
      as (_ & _ & Hnext);
      [by vm_compute | by vm_compute | done | done | by vm_compute
      | vm_compute; set_solver |].
    exact (Hnext (6 * Second) 20 false false).
Defined.

(** ** The artefacts of a fingerprint *)

(** C9 on the code: no command-line record is written.  The path of the
    record is computed with the two others, the fingerprint with the suffix
    [.cmd], and nothing creates the file: after an execution that completed
    (a child was started and waited for) the output blob and the exit record
    exist and the command-line record does not. *)
Theorem no_command_record :
  RunCached Failing.sys Failing.command 20 true false Sample.fresh
  = Returns 3 Layout.after /\
  spawned Layout.after = [(Failing.argv, Some Failing.run)] /\
  is_Some (files Layout.after !! Sample.blob_of Failing.command) /\
  is_Some (files Layout.after !! Sample.exit_of Failing.command) /\
  CmdFile (NewCommandCache Failing.command 20 Sample.fresh)
  = Sample.cmd_of Failing.command /\
  ~ is_Some (files Layout.after !! Sample.cmd_of Failing.command).
Proof.
  split; [by vm_compute |]. split; [by vm_compute |].
  split; [vm_compute; eauto |]. split; [vm_compute; eauto |].
  split; [by vm_compute |].
  vm_compute. by intros [? ?].
Qed.

(** X16: what an invocation that ran the command leaves in the cache
    directory (the log of children started grew by one child, [r]).  The paths are the
    fingerprint with the suffixes [.data], [.exit] and [.cmd]; the output
    blob holds the output of the child after an exit with 0, and after any
    exit under "cache on error"; the exit record holds the exit code after
    an exit that is not 0; and the file at the [.cmd] path is as it was when
    the guard was taken. *)
Theorem cache_entry_layout (sys : System) (command : list string) (cacheTimeout : float64)
    (cacheOnError cacheOnAbort : bool) (w w1 : World) (code : Z)
    (argv : list string) (r : Run) :
  let cc := NewCommandCache command cacheTimeout w in
  RunCached sys command cacheTimeout cacheOnError cacheOnAbort w = Returns code w1 ->
  spawned w1 = spawned w ++ [(argv, Some r)] ->
  (CommandHash cc = GenerateCommandHash command /\
   OutputCache cc = filepath_Join (tmpDir w) (CommandHash cc +:+ ".data") /\
   ExitFile cc = filepath_Join (tmpDir w) (CommandHash cc +:+ ".exit") /\
   CmdFile cc = filepath_Join (tmpDir w) (CommandHash cc +:+ ".cmd")) /\
  files w1 !! CmdFile cc = files (snd (CreatePidFile sys command w)) !! CmdFile cc /\
  match waited r with
  | WaitOk =>
      code = 0 /\ exists f, files w1 !! OutputCache cc = Some f /\ data f = piped r
  | ExitError st =>
      ExitFile cc ∉ denied w1 ->
      code = ExitCode st /\
      (exists g, files w1 !! ExitFile cc = Some g /\ data g = strconv.Itoa code) /\
      (cacheOnError = true ->
       exists f, files w1 !! OutputCache cc = Some f /\ data f = piped r)
  | WaitFailed => code = 1
  end.
Proof.
  intros cc Hrun Hlog. split; [done |].
  destruct (paths_distinct command cacheTimeout w) as (Hde & Hdl & Hel & Hcd & Hce & Hcl).
  fold cc in Hde, Hdl, Hel, Hcd, Hce, Hcl.
  destruct (RunCached_executed _ _ _ _ _ _ _ _ _ _ Hrun Hlog)
    as (_ & Hlden & _ & _ & w1' & Hexec & Hlog' & ->).
  fold cc in Hexec |- *. set (p := lock_path command w) in *.
  set (wl := snd (CreatePidFile sys command w)) in *.
  set (wv := if verbose wl then os.print _ wl else wl) in *.
  assert (denied wv = denied wl /\ files wv = files wl) as (Hvd & Hvf)
    by (subst wv; by destruct (verbose wl)).
  destruct (ExecuteCommand_ran sys command cc wv code w1' argv r Hexec Hlog')
    as (_ & Hblob & Hend).
  destruct (after_copy_facts cc argv r wv Hblob)
    as (_ & _ & _ & _ & _ & _ & (f & Hf & Hfd) & Hrest).
  pose proof (ExecuteCommand_denied sys command cc wv) as Hd1.
  rewrite Hexec in Hd1. cbn [world_of] in Hd1.
  set (wi := if negb (code =? 0) && negb cacheOnError then Invalidate cc w1' else w1').
  assert (denied wi = denied wv) as Hid.
  { subst wi. destruct (negb (code =? 0) && negb cacheOnError).
    - unfold Invalidate. destruct (Remove_frame (OutputCache cc) w1')
        as (_ & _ & _ & _ & _ & ->). by rewrite Hd1.
    - by rewrite Hd1. }
  destruct (Remove_frame p wi) as (_ & _ & _ & _ & _ & Hrd).
  destruct (Remove_lookup p wi) as [_ Hkept]; [by rewrite Hid, Hvd |].
  assert (forall q, q <> OutputCache cc -> files wi !! q = files w1' !! q) as Hinv.
  { intros q Hq. subst wi. destruct (negb (code =? 0) && negb cacheOnError); [| done].
    unfold Invalidate. destruct (Remove_lookup (OutputCache cc) w1') as [_ Hother];
      [by rewrite Hd1 |]. by apply Hother. }
  rewrite Hrd, Hid. rewrite !Hkept by done. rewrite <- Hvf.
  destruct (waited r) as [| st |].
  - destruct Hend as [-> ->]. cbn [Z.eqb negb andb] in *. subst wi.
    split; [by rewrite Hrest |]. split; [done |]. by exists f.
  - case_bool_decide as Hexit.
    + destruct Hend as [-> Hsame]. split.
      * rewrite Hinv by done. rewrite Hsame. by rewrite Hrest.
      * by intros Hok.
    + destruct Hend as [-> ->].
      destruct (after_failure_facts cc argv r (ExitCode st) wv Hblob Hexit Hde)
        as (_ & _ & _ & _ & (f' & Hf' & Hfd') & (g & Hg & Hgd) & Hrest').
      split; [rewrite Hinv by done; by rewrite Hrest' |].
      intros _. split; [done |]. split.
      * rewrite Hinv by done. by exists g.
      * intros ->. subst wi. rewrite andb_false_r. by exists f'.
  - destruct Hend as [-> ->]. split; [| done].
    rewrite Hinv by done. by rewrite Hrest.
Qed.

(** X16 on a sample: after the failing [make check] under "cache on error"
    the exit record holds 3 and there is no file at the [.cmd] path. *)
Lemma cache_entry_layout_sample :
  let cc := NewCommandCache Failing.command 20 Sample.fresh in
  (exists g, files Layout.after !! ExitFile cc = Some g /\ data g = strconv.Itoa 3) /\
  files Layout.after !! CmdFile cc = None.
Proof.
  intros cc.
  destruct (cache_entry_layout Failing.sys Failing.command 20 true false
              Sample.fresh Layout.after 3 Failing.argv Failing.run)
    as (_ & Hcmd & _ & Hexit & _);
    [by vm_compute | by vm_compute | vm_compute; set_solver |].
  split; [exact Hexit |]. fold cc in Hcmd. rewrite Hcmd. by vm_compute.
Defined.

(** ** Where the program and its description part *)

(** C1 on the code: an execution that ends with code 0 leaves the exit
    record alone.  The first call runs the command, which fails with 3; the
    second runs it again, it succeeds, and the exit record still holds 3; the
    third call, five seconds later, replays the fresh output with code 3. *)
Theorem exit_record_survives_success :
  (exists w1, Recovering.first = Returns 3 w1 /\
     data <$> files w1 !! Sample.exit_of Recovering.command = Some "3") /\
  (exists w2, Recovering.second = Returns 0 w2 /\
     length (spawned w2) = 2%nat /\
     data <$> files w2 !! Sample.blob_of Recovering.command = Some (Str.line "up") /\
     data <$> files w2 !! Sample.exit_of Recovering.command = Some "3") /\
  (exists w3, Recovering.third = Returns 3 w3 /\
     length (spawned w3) = 2%nat /\
     stdout w3 = stdout (world_of Recovering.second) +:+ Str.line "up").
Proof.
  split; [| split]; eexists; (split; [by vm_compute |]); by vm_compute.
Qed.

(** C3 on the code: a stale lock is never recognised.  The lock of [date]
    names process 4242, which does not exist; [Signal] reports that with
    [os.ErrProcessDone], which [isProcessRunning] does not take for "no such
    process", so the process counts as running.  The invocation polls the
    lock five times, sleeps five seconds and ends with code 2 and the timeout
    message; the lock file is still there, the cache is not looked at and the
    command is not run. *)
Theorem stale_lock_fails_the_invocation :
  lock_path Stale.command Stale.start = Sample.lock_of Stale.command /\
  getPidFromFile (Sample.lock_of Stale.command) Stale.start = 4242 /\
  (4242 ∉ alive Stale.start) /\
  os.Signal0 4242 Stale.start = Some os.ErrProcessDone /\
  isProcessRunning 4242 Stale.start = true /\
  exists w',
    RunCached Stale.sys Stale.command 20 false false Stale.start = Returns 2 w' /\
    data <$> files w' !! Sample.lock_of Stale.command = Some "4242" /\
    stderr w' = Str.line "Timeout waiting for previous command to finish" /\
    clock w' = clock Stale.start + 5 * Second /\
    stdout w' = EmptyString /\ spawned w' = [].
Proof.
  split; [by vm_compute |]. split; [by vm_compute |].
  split; [vm_compute; set_solver |].
  split; [by vm_compute |]. split; [by vm_compute |].
  eexists. split; [by vm_compute |]. by vm_compute.
Qed.

(** C4 on the code: the standard error of the child goes to the standard
    error of the caller and nowhere else.  The blob and the standard output
    of the caller receive the same bytes, those of the child's standard
    output; a replay prints them again and writes nothing to standard
    error. *)
Theorem stderr_is_not_cached :
  (exists w1, Noisy.first = Returns 0 w1 /\
     data <$> files w1 !! Sample.blob_of Noisy.command = Some (Str.line "result") /\
     stdout w1 = Str.line "result" /\ stderr w1 = Str.line "warning") /\
  (exists w2, Noisy.second = Returns 0 w2 /\
     spawned w2 = spawned (world_of Noisy.first) /\
     stdout w2 = Str.line "result" +:+ Str.line "result" /\
     stderr w2 = Str.line "warning").
Proof.
  split; eexists; (split; [by vm_compute |]); by vm_compute.
Qed.

(** C5 on the code: the command line given to the shell is the arguments
    joined by spaces, with a backslash put before each double quote.  The
    argument [he said "hi"] gives the same line as the three arguments [he],
    [said], ["hi"], so no tokeniser can hand both back unchanged; and the
    line built for the arguments of the repository's own test is not the one
    the test expects. *)
Theorem quoting_loses_the_boundaries :
  Quoting.spoken <> Quoting.scattered /\
  ConstructBashCommand (PreprocessArguments Quoting.spoken)
  = inl ("echo he said " +:+ Quoting.bs +:+ Quoting.bs +:+ Str.quoted ("hi" +:+ Quoting.bs +:+ Quoting.bs)) /\
  ConstructBashCommand (PreprocessArguments Quoting.spoken)
  = ConstructBashCommand (PreprocessArguments Quoting.scattered) /\
  ConstructBashCommand ["echo"; "a b"] = ConstructBashCommand ["echo"; "a"; "b"] /\
  ConstructBashCommand Quoting.tested <> inl Quoting.expected.
Proof.
  split; [discriminate |]. repeat (split; [by vm_compute |]). by vm_compute.
Qed.

(** C7 on the code: when the quoting of the arguments cannot be parsed the
    process ends inside [ConstructBashCommand], through [log.Fatal], with
    code 1; the deferred removal of the lock file does not run and the file
    stays, holding the id of the process that is gone. *)
Theorem parse_failure_leaks_the_lock :
  exists w',
    RunCached Unclosed.sys Unclosed.command 20 false false Sample.fresh = Exits 1 w' /\
    main Unclosed.sys 20 false false Unclosed.positional Sample.fresh = (1, w') /\
    data <$> files w' !! Sample.lock_of Unclosed.command = Some "100" /\
    pid Sample.fresh = 100 /\ spawned w' = [].
Proof.
  eexists. split; [by vm_compute |]. by vm_compute.
Qed.

(** * Further properties of the program *)

(** ** The fingerprint as a file name *)

Section Shape.

Lemma le_bytes_length n x : length (md5.le_bytes n x) = n.
Proof. unfold md5.le_bytes. by rewrite length_map, length_seq. Qed.

Lemma Sum_length msg : length (md5.Sum msg) = 16%nat.
Proof.
  unfold md5.Sum. destruct (md5.blocks _ _ _) as [[[a b] c] d].
  by rewrite !length_app, !le_bytes_length.
Qed.

Lemma digit_is_hex n : 0 <= n < 16 -> is_hex (hex.digit n) = true.
Proof.
  intros Hn. rewrite <- (Z2Nat.id n) by lia.
  assert (Z.to_nat n < 16)%nat as Hk by lia.
  unfold hex.digit. rewrite Nat2Z.id. generalize dependent (Z.to_nat n).
  clear. intros k Hk.
  do 16 (destruct k as [|k]; [by vm_compute |]). lia.
Qed.

Lemma EncodeToString_shape l :
  Forall is_byte l ->
  String.length (hex.EncodeToString l) = (2 * length l)%nat /\
  all_chars is_hex (hex.EncodeToString l) = true.
Proof.
  induction 1 as [|b l Hb _ [IHlen IHhex]]; [done |].
  unfold is_byte in Hb. cbn [hex.EncodeToString String.length all_chars length].
  rewrite IHlen, IHhex, !digit_is_hex.
  - split; [lia | done].
  - apply Z.mod_pos_bound. lia.
  - split; [apply Z.div_pos | apply Z.div_lt_upper_bound]; lia.
Qed.

End Shape.

(** X1: a fingerprint is thirty-two lower-case hexadecimal digits, whatever
    the command. *)
Theorem fingerprint_shape (command : list string) :
  String.length (GenerateCommandHash command) = 32%nat /\
  all_chars is_hex (GenerateCommandHash command) = true.
Proof.
  unfold GenerateCommandHash.
  destruct (EncodeToString_shape _ (Sum_range (Str.bytes (strings_Join command " "))))
    as [Hlen Hhex].
  by rewrite Hlen, Sum_length.
Qed.

(** ** The tokens of a command line *)

Section Tokens.

Lemma len_positive s : (0 <? Str.len s) = true -> s <> EmptyString.
Proof. by intros H ->. Qed.

Lemma parse_rune_tokens st r :
  Forall (fun t => t <> EmptyString) (result st) ->
  Forall (fun t => t <> EmptyString) (result (parse_rune st r)).
Proof.
  intros Hst. unfold parse_rune.
  destruct (inQuotes st); [by destruct (r =? quoteChar st) |].
  destruct ((r =? rune_quote) || (r =? rune_apostrophe)); [done |].
  destruct (unicode_IsSpace r); [| done].
  destruct (0 <? Str.len (token st)) eqn:Hlen; [| done].
  cbn [result]. apply Forall_app_2; [done |].
  apply Forall_cons_2; [by apply len_positive | done].
Qed.

Lemma fold_parse_tokens rs st :
  Forall (fun t => t <> EmptyString) (result st) ->
  Forall (fun t => t <> EmptyString) (result (fold_left parse_rune rs st)).
Proof.
  revert st. induction rs as [|r rs IH]; intros st Hst; [done |].
  cbn [fold_left]. by apply IH, parse_rune_tokens.
Qed.

End Tokens.

(** X2: no token that [CustomParse] returns is empty, whatever the input:
    runs of white space between words give no empty argument. *)
Theorem CustomParse_tokens_not_empty (input : string) (tokens : list string) :
  CustomParse input = inl tokens ->
  Forall (fun t => t <> EmptyString) tokens.
Proof.
  unfold CustomParse. cbv zeta.
  set (st := fold_left parse_rune _ _).
  assert (Forall (fun t => t <> EmptyString) (result st)) as Hres
    by (apply fold_parse_tokens; constructor).
  destruct (inQuotes st); [discriminate |].
  intros [= <-].
  destruct (0 <? Str.len (token st)) eqn:Hlen; [| done].
  apply Forall_app_2; [done |].
  apply Forall_cons_2; [by apply len_positive | done].
Qed.

(** X2 on a sample: the words of a line with doubled and trailing spaces. *)
Lemma CustomParse_tokens_not_empty_sample :
  Forall (fun t => t <> EmptyString) ["ls"; "-l"; "/tmp"].
Proof.
  apply (CustomParse_tokens_not_empty "  ls   -l /tmp  " ["ls"; "-l"; "/tmp"]).
  by vm_compute.
Defined.

(** ** Plain words *)

Section Plain.

Lemma chr_byte c : Str.chr (Str.byte c) = c.
Proof.
  unfold Str.chr, Str.byte.
  assert (N_of_ascii c < 256)%N as Hc by apply N_ascii_bounded.
  rewrite Z.mod_small by lia. rewrite N2Z.id. apply ascii_N_embedding.
Qed.

Lemma byte_range c : 0 <= Str.byte c < 256.
Proof.
  unfold Str.byte. assert (N_of_ascii c < 256)%N as Hc by apply N_ascii_bounded. lia.
Qed.

Lemma byte_inj c c' : Str.byte c = Str.byte c' -> c = c'.
Proof. intros H. by rewrite <- (chr_byte c), <- (chr_byte c'), H. Qed.

Lemma of_bytes_bytes s : Str.of_bytes (Str.bytes s) = s.
Proof. induction s as [|c s IH]; [done |]. simpl. by rewrite chr_byte, IH. Qed.

Lemma bytes_append a b : Str.bytes (a +:+ b) = Str.bytes a ++ Str.bytes b.
Proof. induction a as [|c a IH]; [done |]. rewrite append_cons. simpl. by rewrite IH. Qed.

Lemma bytes_length s : length (Str.bytes s) = String.length s.
Proof. induction s as [|c s IH]; [done |]. simpl. by rewrite IH. Qed.

(** The runes of an ASCII string are its bytes, one byte each. *)
Lemma chunks_fuel_ascii s : forall fuel,
  all_chars ascii7 s = true -> (String.length s <= fuel)%nat ->
  utf8.chunks_fuel fuel (Str.bytes s) = map (fun b => (b, [b])) (Str.bytes s).
Proof.
  induction s as [|c s IH]; intros fuel Hs Hfuel; [by destruct fuel |].
  destruct fuel as [|fuel]; [simpl in Hfuel; lia |].
  simpl in Hs. apply andb_true_iff in Hs as [Hc Hs]. unfold ascii7 in Hc.
  cbn [Str.bytes utf8.chunks_fuel utf8.DecodeRune]. rewrite Hc.
  cbn [firstn skipn map]. f_equal. apply IH; [done | simpl in Hfuel; lia].
Qed.

Lemma chunks_ascii s :
  all_chars ascii7 s = true ->
  utf8.chunks s = map (fun b => (b, [b])) (Str.bytes s).
Proof. intros Hs. by apply chunks_fuel_ascii. Qed.

Lemma runes_ascii s : all_chars ascii7 s = true -> utf8.runes s = Str.bytes s.
Proof.
  intros Hs. unfold utf8.runes. rewrite chunks_ascii by done.
  rewrite map_map. apply map_id.
Qed.

Lemma all_chars_append P a b :
  all_chars P (a +:+ b) = all_chars P a && all_chars P b.
Proof.
  induction a as [|c a IH]; [done |].
  rewrite append_cons. simpl. by rewrite IH, andb_assoc.
Qed.

Lemma all_chars_impl (P Q : ascii -> bool) s :
  (forall c, P c = true -> Q c = true) -> all_chars P s = true -> all_chars Q s = true.
Proof.
  intros HPQ. induction s as [|c s IH]; [done |]. simpl.
  rewrite !andb_true_iff. intros [Hc Hs]. split; [by apply HPQ | by apply IH].
Qed.

(** What a plain character is not. *)
Lemma plain_char_spec c :
  plain_char c = true ->
  ascii7 c = true /\ unicode_IsSpace (Str.byte c) = false /\
  c <> Str.quote /\ c <> Str.apostrophe /\ c <> Str.backslash.
Proof.
  unfold plain_char. rewrite !andb_true_iff, !negb_true_iff, !Ascii.eqb_neq.
  tauto.
Qed.

(** One plain character goes to the token. *)
Lemma parse_plain_char c res tok q :
  plain_char c = true ->
  parse_rune (mkParse res tok false q) (Str.byte c)
  = mkParse res (tok +:+ String c EmptyString) false q.
Proof.
  intros (H7 & Hsp & Hq & Ha & _)%plain_char_spec. unfold ascii7 in H7.
  apply Z.ltb_lt in H7.
  pose proof (byte_range c) as Hr.
  unfold parse_rune. cbn [inQuotes result token quoteChar].
  assert ((Str.byte c =? rune_quote) = false) as ->.
  { apply Z.eqb_neq. intros H. apply Hq, byte_inj. by rewrite H. }
  assert ((Str.byte c =? rune_apostrophe) = false) as ->.
  { apply Z.eqb_neq. intros H. apply Ha, byte_inj. by rewrite H. }
  cbn [orb]. rewrite Hsp. unfold WriteRune, utf8.EncodeRune, utf8.between.
  assert ((0 <=? Str.byte c) = true) as -> by (apply Z.leb_le; lia).
  assert ((Str.byte c <=? 127) = true) as -> by (apply Z.leb_le; lia).
  cbn [andb].
  cbn [Str.of_bytes]. by rewrite chr_byte.
Qed.

Lemma parse_plain_word w : forall res tok q,
  all_chars plain_char w = true ->
  fold_left parse_rune (Str.bytes w) (mkParse res tok false q)
  = mkParse res (tok +:+ w) false q.
Proof.
  induction w as [|c w IH]; intros res tok q Hw.
  - simpl. f_equal. clear. induction tok as [|x tok IH]; [done |].
    rewrite append_cons. by rewrite <- IH.
  - simpl in Hw. apply andb_true_iff in Hw as [Hc Hw].
    cbn [Str.bytes fold_left]. rewrite parse_plain_char by done.
    rewrite IH by done. by rewrite append_assoc.
Qed.

Lemma plain_word_spec w :
  plain_word w = true -> w <> EmptyString /\ all_chars plain_char w = true.
Proof.
  unfold plain_word. rewrite andb_true_iff, negb_true_iff, String.eqb_neq. tauto.
Qed.

Lemma len_not_empty s : s <> EmptyString -> (0 <? Str.len s) = true.
Proof.
  destruct s; [done |]. intros _. unfold Str.len. cbn [String.length].
  apply Z.ltb_lt. lia.
Qed.

(** The loop of [CustomParse] over plain words joined by spaces. *)
Lemma parse_plain_words words : forall res q,
  Forall (fun a => plain_word a = true) words ->
  let st := fold_left parse_rune (Str.bytes (strings_Join words " ")) (mkParse res EmptyString false q) in
  finished st = res ++ words /\ inQuotes st = false.
Proof.
  induction words as [|w words IH]; intros res q Hwords.
  - simpl. unfold finished. simpl. by rewrite app_nil_r.
  - apply Forall_cons_1 in Hwords as [Hw Hwords].
    apply plain_word_spec in Hw as [Hne Hw].
    destruct words as [|w2 words].
    + cbn [strings_Join]. cbv zeta. rewrite parse_plain_word by done.
      change (EmptyString +:+ w) with w.
      unfold finished. cbn [token result inQuotes]. by rewrite len_not_empty.
    + change (strings_Join (w :: w2 :: words) " ")
        with (w +:+ " " +:+ strings_Join (w2 :: words) " ").
      cbv zeta. rewrite !bytes_append, !fold_left_app, parse_plain_word by done.
      change (EmptyString +:+ w) with w.
      change (Str.bytes " ") with [32]. cbn [fold_left].
      assert (parse_rune (mkParse res w false q) 32 = mkParse (res ++ [w]) EmptyString false q)
        as ->.
      { unfold parse_rune. cbn [inQuotes token result quoteChar].
        change ((32 =? rune_quote) || (32 =? rune_apostrophe)) with false.
        change (unicode_IsSpace 32) with true. cbv iota. by rewrite len_not_empty. }
      destruct (IH (res ++ [w]) q Hwords) as [Hfin Hq].
      cbv zeta in Hfin, Hq. rewrite Hfin, Hq. by rewrite <- app_assoc.
Qed.

Lemma replace_absent s x new :
  all_chars (fun c => negb (Ascii.eqb c x)) s = true ->
  strings_ReplaceAll s (String x EmptyString) new = s.
Proof.
  unfold strings_ReplaceAll. induction s as [|c s IH]; [done |].
  simpl. rewrite andb_true_iff, negb_true_iff, Ascii.eqb_neq. intros [Hc Hs].
  destruct (ascii_dec x c) as [-> | _]; [done |]. by rewrite IH.
Qed.

Lemma Join_all_chars P words :
  P " "%char = true ->
  Forall (fun a => all_chars P a = true) words ->
  all_chars P (strings_Join words " ") = true.
Proof.
  intros Hsp. induction words as [|w words IH]; intros Hwords; [done |].
  apply Forall_cons_1 in Hwords as [Hw Hwords].
  destruct words as [|w2 words]; [done |].
  change (strings_Join (w :: w2 :: words) " ")
    with (w +:+ " " +:+ strings_Join (w2 :: words) " ").
  rewrite !all_chars_append, Hw, IH by done. simpl. by rewrite Hsp.
Qed.

Lemma preprocess_plain w : plain_word w = true -> preprocess w = w.
Proof.
  intros [Hne Hw]%plain_word_spec. unfold preprocess.
  assert (all_chars (fun c => negb (Ascii.eqb c Str.backslash)) w = true) as Hb.
  { eapply all_chars_impl; [| exact Hw].
    intros c (_ & _ & _ & _ & Hb)%plain_char_spec.
    by apply negb_true_iff, Ascii.eqb_neq. }
  assert (all_chars (fun c => negb (Ascii.eqb c Str.quote)) w = true) as Hq.
  { eapply all_chars_impl; [| exact Hw].
    intros c (_ & _ & Hq & _)%plain_char_spec.
    by apply negb_true_iff, Ascii.eqb_neq. }
  rewrite (replace_absent w Str.backslash) by done.
  rewrite (replace_absent w Str.quote) by done.
  destruct w as [|c w]; [done |].
  simpl in Hw. apply andb_true_iff in Hw as [Hc _].
  apply plain_char_spec in Hc as (_ & _ & _ & Ha & _).
  apply Ascii.eqb_neq in Ha. by rewrite Ha, andb_false_r.
Qed.

Lemma PreprocessArguments_plain args :
  Forall (fun a => plain_word a = true) args -> PreprocessArguments args = args.
Proof.
  unfold PreprocessArguments. induction 1 as [|a args Ha _ IH]; [done |].
  simpl. by rewrite preprocess_plain, IH.
Qed.

Lemma CustomParse_plain words :
  Forall (fun a => plain_word a = true) words ->
  CustomParse (strings_Join words " ") = inl words.
Proof.
  intros Hwords. unfold CustomParse.
  rewrite runes_ascii.
  - destruct (parse_plain_words words [] 0 Hwords) as [Hfin Hq].
    cbv zeta in *. rewrite Hq. unfold finished in Hfin. by rewrite Hfin.
  - apply Join_all_chars; [done |].
    eapply Forall_impl; [exact Hwords |]. intros a [_ Ha]%plain_word_spec.
    eapply all_chars_impl; [| exact Ha]. by intros c (H7 & _)%plain_char_spec.
Qed.

End Plain.

(** X3: arguments that are plain words (ASCII, not empty, with no white
    space, quote, apostrophe or backslash) pass through unchanged:
    [PreprocessArguments] leaves them as they are, [CustomParse] splits their
    joined line back into them, and the script given to the shell is the
    words joined by single spaces. *)
Theorem plain_arguments_pass (args : list string) :
  Forall (fun a => plain_word a = true) args ->
  PreprocessArguments args = args /\
  CustomParse (strings_Join args " ") = inl args /\
  ConstructBashCommand (PreprocessArguments args) = inl (strings_Join args " ").
Proof.
  intros Hargs. split; [by apply PreprocessArguments_plain |].
  split; [by apply CustomParse_plain |].
  rewrite PreprocessArguments_plain by done.
  unfold ConstructBashCommand. rewrite CustomParse_plain by done.
  f_equal. apply replace_absent, Join_all_chars; [done |].
  eapply Forall_impl; [exact Hargs |]. intros a [_ Ha]%plain_word_spec.
  eapply all_chars_impl; [| exact Ha].
  intros c (_ & _ & Hq & _)%plain_char_spec. by apply negb_true_iff, Ascii.eqb_neq.
Qed.

(** X3 on a sample: [ls -l /tmp]. *)
Lemma plain_arguments_pass_sample :
  ConstructBashCommand (PreprocessArguments ["ls"; "-l"; "/tmp"]) = inl "ls -l /tmp".
Proof.
  apply (plain_arguments_pass ["ls"; "-l"; "/tmp"]).
  repeat constructor.
Defined.

(** ** Invalidation *)

(** X4: when the path of the output blob is accessible, [Invalidate]
    removes the blob and the entry is invalid afterwards, whatever the
    timeout; no other file changes. *)
Theorem invalidated_is_invalid (cc : CommandCache) (w : World) :
  OutputCache cc ∉ denied w ->
  files (Invalidate cc w) !! OutputCache cc = None /\
  IsValid cc (Invalidate cc w) = false /\
  forall q, q <> OutputCache cc -> files (Invalidate cc w) !! q = files w !! q.
Proof.
  intros Hok. unfold Invalidate.
  destruct (Remove_lookup (OutputCache cc) w Hok) as [Hgone Hkept].
  destruct (Remove_frame (OutputCache cc) w) as (_ & _ & _ & _ & _ & Hden).
  split; [done |]. split; [| done].
  unfold IsValid. by rewrite Stat_ok, Hgone by (by rewrite Hden).
Qed.

(** X4 on a sample: the entry that the failing [make check] left under
    "cache on error". *)
Lemma invalidated_is_invalid_sample :
  IsValid (NewCommandCache Failing.command 20 Sample.fresh)
    (Invalidate (NewCommandCache Failing.command 20 Sample.fresh) Failing.kept) = false.
Proof.
  apply (invalidated_is_invalid (NewCommandCache Failing.command 20 Sample.fresh)
           Failing.kept).
  vm_compute. set_solver.
Defined.

(** ** The guard around an invocation *)

Section Release.

Context (sys : System).

Lemma sendTextToStdout_frame path w :
  let w' := snd (sendTextToStdout path w) in
  files w' = files w /\ denied w' = denied w /\ spawned w' = spawned w /\
  clock w' = clock w /\ tmpDir w' = tmpDir w.
Proof. unfold sendTextToStdout. by destruct (os.ReadFile path w). Qed.

Lemma RunCached_served command cacheTimeout cacheOnError cacheOnAbort w :
  RunCached sys command cacheTimeout cacheOnError cacheOnAbort w =
  let '(pidFile, w) := CreatePidFile sys command w in
  if String.eqb pidFile EmptyString then
    Returns 2 (os.eprint (Str.line "Timeout waiting for previous command to finish") w)
  else
    defer (os.Remove pidFile)
      (served sys command (NewCommandCache command cacheTimeout w) cacheOnError w).
Proof. reflexivity. Qed.

(** The body of [RunCached] does not change what can be accessed. *)
Lemma served_denied command cache cacheOnError w :
  denied (world_of (served sys command cache cacheOnError w)) = denied w.
Proof.
  unfold served. destruct (IsValid cache w); cbv zeta.
  - cbn [world_of].
    match goal with |- context [sendTextToStdout ?p ?x] =>
      destruct (sendTextToStdout_frame p x) as (_ & -> & _) end.
    by destruct (verbose w).
  - set (wv := if verbose w then _ else w).
    assert (denied wv = denied w) as <- by (subst wv; by destruct (verbose w)).
    pose proof (ExecuteCommand_denied sys command cache wv) as Hden.
    destruct (ExecuteCommand sys command cache wv) as [rc w' | rc w']; [| done].
    cbn [world_of] in *.
    destruct (negb (rc =? 0) && negb cacheOnError); [| done].
    unfold Invalidate.
    by destruct (Remove_frame (OutputCache cache) w') as (_ & _ & _ & _ & _ & ->).
Qed.

(** With the guard free, [RunCached] takes it at once, serves, and releases
    it. *)
Lemma RunCached_free command cacheTimeout cacheOnError cacheOnAbort w :
  files w !! lock_path command w = None -> lock_path command w ∉ denied w ->
  RunCached sys command cacheTimeout cacheOnError cacheOnAbort w =
  defer (os.Remove (lock_path command w))
    (served sys command (NewCommandCache command cacheTimeout w) cacheOnError
       (locked command w)).
Proof.
  intros Hfree Hp. rewrite RunCached_served, (acquire_free sys command w Hfree Hp).
  rewrite lock_path_not_empty.
  destruct (locked_frame command w Hp) as (_ & _ & _ & _ & Htmp & _).
  by rewrite (NewCommandCache_tmpDir _ _ _ _ Htmp).
Qed.

Lemma Stat_agree q w1 w2 :
  denied w1 = denied w2 -> files w1 !! q = files w2 !! q ->
  os.Stat q w1 = os.Stat q w2.
Proof. intros Hd Hf. unfold os.Stat. by rewrite Hd, Hf. Qed.

(** Taking the guard and releasing it leaves the files as they were. *)
Lemma lock_cycle p w w' :
  files w !! p = None -> p ∉ denied w' ->
  (forall q, q <> p -> files w' !! q = files w !! q) ->
  files (os.Remove p w') = files w.
Proof.
  intros Hfree Hp Hsame. destruct (Remove_lookup p w' Hp) as [Hgone Hkept].
  apply map_eq. intros q. destruct (decide (q = p)) as [-> | Hq].
  - by rewrite Hgone, Hfree.
  - by rewrite Hkept, Hsame.
Qed.

End Release.

(** X5: an invocation that took the guard and returns leaves no lock file
    behind, on a replay as after an execution, successful or not. *)
Theorem lock_released_on_return (sys : System) (command : list string)
    (cacheTimeout : float64) (cacheOnError cacheOnAbort : bool) (w w1 : World) (code : Z) :
  RunCached sys command cacheTimeout cacheOnError cacheOnAbort w = Returns code w1 ->
  fst (CreatePidFile sys command w) <> EmptyString ->
  files w1 !! lock_path command w = None.
Proof.
  intros Hrun Hgot. rewrite RunCached_served in Hrun.
  destruct (CreatePidFile sys command w) as [pidFile wl] eqn:Hlock.
  apply CreatePidFile_spec in Hlock as (_ & _ & _ & Hspec).
  cbn [fst] in Hgot. apply String.eqb_neq in Hgot. rewrite Hgot in Hrun.
  destruct (Hspec Hgot) as (-> & Hden & _).
  pose proof (served_denied sys command (NewCommandCache command cacheTimeout wl)
                cacheOnError wl) as Hbody.
  destruct (served _ _ _ _ _) as [rc wb | rc wb]; [| discriminate].
  cbn [defer world_of] in *. injection Hrun as <- <-.
  apply Remove_lookup. by rewrite Hbody.
Qed.

(** X5 on a sample: after the failing [make check] the lock is gone. *)
Lemma lock_released_on_return_sample :
  files Failing.kept !! lock_path Failing.command Sample.fresh = None.
Proof.
  apply (lock_released_on_return Failing.sys Failing.command 20 true false
           Sample.fresh Failing.kept 3); by vm_compute.
Defined.

(** ** Replay *)

Section Replay.

Context (sys : System).

Lemma served_replay command cache cacheOnError wl f :
  os.Stat (OutputCache cache) wl = inr f ->
  float64_le (seconds_since (modTime f) wl) (CacheTimeout cache) = true ->
  let wv := if verbose wl then os.print (Str.line "Returning cached result") wl else wl in
  served sys command cache cacheOnError wl
  = Returns (fst (strconv.Atoi (readFileOrDefault (ExitFile cache) "0" wl)))
      (os.print (data f) wv).
Proof.
  intros Hstat Hfresh wv. unfold served, IsValid. rewrite Hstat, Hfresh. cbv zeta.
  fold wv.
  assert (files wv = files wl /\ denied wv = denied wl) as [Hvf Hvd]
    by (subst wv; by destruct (verbose wl)).
  assert (os.Stat (OutputCache cache) wv = inr f) as Hstat'
    by (rewrite <- Hstat; by apply Stat_agree; rewrite ?Hvf).
  unfold sendTextToStdout, readFileOrDefault, os.ReadFile. rewrite Hstat'. cbn [snd].
  by rewrite (Stat_agree (ExitFile cache) (os.print (data f) wv) wl)
    by (world_simpl; by rewrite ?Hvf).
Qed.

End Replay.

(** A call that finds the guard free and a blob no older than the timeout
    replays the blob. *)
Lemma RunCached_replayed (sys : System) (command : list string) (cacheTimeout : float64)
    (cacheOnError cacheOnAbort : bool) (w : World) (f : File) :
  let cc := NewCommandCache command cacheTimeout w in
  files w !! lock_path command w = None -> lock_path command w ∉ denied w ->
  OutputCache cc ∉ denied w -> files w !! OutputCache cc = Some f ->
  float64_le (seconds_since (modTime f) w) cacheTimeout = true ->
  exists code w',
    RunCached sys command cacheTimeout cacheOnError cacheOnAbort w = Returns code w' /\
    code = fst (strconv.Atoi (readFileOrDefault (ExitFile cc) "0" w)) /\
    (forall e, os.ReadFile (ExitFile cc) w = inl e -> code = 0) /\
    stdout w' = (if verbose w then stdout w +:+ Str.line "Returning cached result"
                 else stdout w) +:+ data f /\
    stderr w' = stderr w /\ spawned w' = spawned w /\
    files w' = files w /\ denied w' = denied w /\ tmpDir w' = tmpDir w.
Proof.
  intros cc Hfree Hp Hblob Hf Hfresh.
  destruct (paths_distinct command cacheTimeout w) as (Hde & Hdl & Hel & _).
  fold cc in Hde, Hdl, Hel.
  destruct (locked_frame command w Hp)
    as (Hclock & Hout & Herr & Hsp & Htmp & Hden & Hverb & Hfiles).
  rewrite (RunCached_free sys command _ _ _ w Hfree Hp). fold cc.
  set (p := lock_path command w) in *. set (wl := locked command w) in *.
  assert (os.Stat (OutputCache cc) wl = inr f) as Hstat.
  { rewrite Stat_ok by (by rewrite Hden). by rewrite Hfiles, Hf. }
  rewrite (served_replay sys command cc cacheOnError wl f Hstat).
  2: { unfold seconds_since, time_Since in *. by rewrite Hclock. }
  cbn [defer]. rewrite Hverb.
  set (wv := if verbose w then os.print _ wl else wl).
  assert (files wv = files wl /\ denied wv = denied wl /\ stderr wv = stderr wl
          /\ spawned wv = spawned wl /\ clock wv = clock wl
          /\ stdout wv = if verbose w then stdout w +:+ Str.line "Returning cached result"
                         else stdout w)
    as (Hvf & Hvd & Hve & Hvs & Hvc & Hvo).
  { subst wv. destruct (verbose w); world_simpl; by rewrite ?Hout. }
  assert (readFileOrDefault (ExitFile cc) "0" wl = readFileOrDefault (ExitFile cc) "0" w)
    as Hsame.
  { unfold readFileOrDefault, os.ReadFile.
    by rewrite (Stat_agree (ExitFile cc) wl w) by (rewrite ?Hfiles; done). }
  eexists _, _. split; [reflexivity |]. rewrite Hsame.
  split; [done |]. split.
  { intros e He. unfold readFileOrDefault. by rewrite He. }
  assert (tmpDir wv = tmpDir wl) as Hvt by (subst wv; by destruct (verbose w)).
  destruct (Remove_frame p (os.print (data f) wv)) as (_ & -> & -> & -> & -> & ->).
  world_simpl. rewrite Hvo, Hve, Hvs, Hvd, Hvt, Herr, Hsp, Hden, Htmp.
  repeat (split; [done |]). split; [| done].
  apply lock_cycle; [done | by rewrite <- Hden, <- Hvd in Hp |].
  intros q Hq. change (files (os.print (data f) wv)) with (files wv).
  rewrite Hvf. by apply Hfiles.
Qed.




(** ** Expiry and failures of the cache file *)

Section Miss.

Context (sys : System).

Lemma IsValid_locked command cacheTimeout w :
  lock_path command w ∉ denied w ->
  let cc := NewCommandCache command cacheTimeout w in
  IsValid cc (locked command w) = IsValid cc w.
Proof.
  intros Hp cc.
  destruct (paths_distinct command cacheTimeout w) as (_ & Hdl & _). fold cc in Hdl.
  destruct (locked_frame command w Hp) as (Hclock & _ & _ & _ & _ & Hden & _ & Hfiles).
  unfold IsValid, seconds_since, time_Since.
  rewrite (Stat_agree (OutputCache cc) (locked command w) w) by (rewrite ?Hfiles; done).
  by rewrite Hclock.
Qed.

Lemma served_runs command cache cacheOnError wl script :
  IsValid cache wl = false ->
  ConstructBashCommand command = inl script ->
  OutputCache cache ∉ denied wl ->
  exists child code w1,
    served sys command cache cacheOnError wl = Returns code w1 /\
    spawned w1 = spawned wl ++ [(["bash"; "-i"; "-c"; script], child)].
Proof.
  intros Hold Hparse Hblob. unfold served. rewrite Hold. cbv zeta.
  set (wv := if verbose wl then os.print _ wl else wl).
  assert (denied wv = denied wl /\ spawned wv = spawned wl) as (Hvd & Hvs)
    by (subst wv; by destruct (verbose wl)).
  destruct (ExecuteCommand_log sys command cache wv script Hparse)
    as (child & code & w1 & -> & Hlog & _); [by rewrite Hvd |].
  exists child, code. eexists. split; [reflexivity |].
  rewrite <- Hvs, <- Hlog.
  destruct (negb (code =? 0) && negb cacheOnError); [| done].
  unfold Invalidate. by destruct (Remove_frame (OutputCache cache) w1) as (_ & _ & _ & -> & _).
Qed.

End Miss.

(** X7: a call that finds the guard free and an output blob older than the
    timeout does not replay it: when the arguments parse and the cache file
    can be created, the command is started and the call returns with the
    guard released. *)
Theorem expired_entry_runs_again (sys : System) (command : list string)
    (cacheTimeout : float64) (cacheOnError cacheOnAbort : bool) (w : World) (f : File)
    (script : string) :
  let cc := NewCommandCache command cacheTimeout w in
  files w !! lock_path command w = None -> lock_path command w ∉ denied w ->
  OutputCache cc ∉ denied w -> files w !! OutputCache cc = Some f ->
  float64_le (seconds_since (modTime f) w) cacheTimeout = false ->
  ConstructBashCommand command = inl script ->
  exists child code w1,
    RunCached sys command cacheTimeout cacheOnError cacheOnAbort w = Returns code w1 /\
    spawned w1 = spawned w ++ [(["bash"; "-i"; "-c"; script], child)] /\
    files w1 !! lock_path command w = None.
Proof.
  intros cc Hfree Hp Hblob Hf Hold Hparse.
  destruct (locked_frame command w Hp) as (_ & _ & _ & Hsp & _ & Hden & _).
  rewrite (RunCached_free sys command _ _ _ w Hfree Hp). fold cc.
  pose proof (served_denied sys command cc cacheOnError (locked command w)) as Hsd.
  destruct (served_runs sys command cc cacheOnError (locked command w) script)
    as (child & code & w1 & Hserved & Hlog); [| done | by rewrite Hden |].
  { pose proof (IsValid_locked command cacheTimeout w Hp) as Hv.
    cbv zeta in Hv. fold cc in Hv. rewrite Hv.
    unfold IsValid. rewrite Stat_ok, Hf by done.
    done. }
  rewrite Hserved in *. cbn [defer world_of] in *.
  exists child, code. eexists. split; [reflexivity |].
  destruct (Remove_frame (lock_path command w) w1) as (_ & _ & _ & -> & _).
  split; [by rewrite Hlog, Hsp |].
  apply Remove_lookup. by rewrite Hsd, Hden.
Qed.

(** X7 on a sample: [report] called again after thirty seconds, with a
    timeout of twenty, is started a second time. *)
Lemma expired_entry_runs_again_sample :
  exists code w1,
    RunCached Noisy.sys Noisy.command 20 false false
      (with_clock (31 * Second) (world_of Noisy.first)) = Returns code w1 /\
    length (spawned w1) = 2%nat.
Proof.
  destruct (expired_entry_runs_again Noisy.sys Noisy.command 20 false false
              (with_clock (31 * Second) (world_of Noisy.first))
              (mkFile (Str.line "result") Second) "report")
    as (child & code & w1 & Hrun & Hlog & _);
    [by vm_compute | vm_compute; set_solver | vm_compute; set_solver
    | by vm_compute | by vm_compute | by vm_compute |].
  exists code, w1. split; [exact Hrun |].
  rewrite Hlog, length_app. by vm_compute.
Defined.



(** ** Reading a process id back *)

Section Trim.

Lemma drop_blank l1 l2 :
  Forall (fun x => unicode_IsSpace (fst x) = true) l1 ->
  drop_spaces (l1 ++ l2) = drop_spaces l2.
Proof.
  induction 1 as [|[r bs] l1 Hr _ IH]; [done |]. simpl in *. by rewrite Hr.
Qed.

Lemma drop_solid l1 l2 :
  Forall (fun x => unicode_IsSpace (fst x) = false) l1 ->
  Forall (fun x => unicode_IsSpace (fst x) = true) l2 ->
  drop_spaces (l1 ++ l2) = match l1 with [] => [] | _ => l1 ++ l2 end.
Proof.
  intros H1 H2. destruct H1 as [|[r bs] l1 Hr _].
  - simpl. rewrite <- (app_nil_r l2). by rewrite drop_blank.
  - simpl in *. by rewrite Hr.
Qed.

Lemma chunks_of P s :
  all_chars (fun c => (Str.byte c <? 128) && P (Str.byte c)) s = true ->
  all_chars ascii7 s = true /\
  Forall (fun x => P (fst x) = true) (map unit_chunk (Str.bytes s)).
Proof.
  induction s as [|c s IH]; [done |]. simpl.
  rewrite !andb_true_iff. intros [[Hc HP] Hs]. destruct (IH Hs) as [Ha HF].
  split; [done |]. by constructor.
Qed.

Lemma Forall_negb (l : list (Z * list Z)) :
  Forall (fun x => negb (unicode_IsSpace (fst x)) = true) l ->
  Forall (fun x => unicode_IsSpace (fst x) = false) l.
Proof.
  intros H. apply (Forall_impl _ _ _ H). intros x. by rewrite negb_true_iff.
Qed.

Lemma concat_unit l : concat (map snd (map unit_chunk l)) = l.
Proof. induction l as [|b l IH]; [done |]. simpl. by rewrite IH. Qed.

Lemma drop_none l :
  Forall (fun x => unicode_IsSpace (fst x) = false) l -> drop_spaces l = l.
Proof. intros [|[r bs] l' Hr _]; [done |]. simpl in *. by rewrite Hr. Qed.

Lemma trim_core (before core after : list (Z * list Z)) :
  Forall (fun x => unicode_IsSpace (fst x) = true) before ->
  Forall (fun x => unicode_IsSpace (fst x) = false) core ->
  Forall (fun x => unicode_IsSpace (fst x) = true) after ->
  rev (drop_spaces (rev (drop_spaces (before ++ core ++ after)))) = core.
Proof.
  intros Hb Hc Ha. rewrite drop_blank, drop_solid by done.
  destruct core as [|x core']; [done |].
  rewrite rev_app_distr, drop_blank by (by apply Forall_rev).
  rewrite drop_none by (by apply Forall_rev). apply rev_involutive.
Qed.

Lemma TrimSpace_padded a s b :
  all_chars blank a = true -> all_chars solid s = true -> all_chars blank b = true ->
  strings_TrimSpace (a +:+ s +:+ b) = s.
Proof.
  intros Ha Hs Hb.
  destruct (chunks_of unicode_IsSpace a Ha) as [Ha7 HA].
  destruct (chunks_of (fun r => negb (unicode_IsSpace r)) s Hs) as [Hs7 HS].
  destruct (chunks_of unicode_IsSpace b Hb) as [Hb7 HB].
  apply Forall_negb in HS.
  unfold strings_TrimSpace.
  rewrite chunks_ascii by (by rewrite !all_chars_append, Ha7, Hs7, Hb7).
  fold unit_chunk. rewrite !bytes_append, !map_app.
  rewrite trim_core, concat_unit by done. apply of_bytes_bytes.
Qed.

Lemma append_empty s : s +:+ EmptyString = s.
Proof. induction s as [|c s IH]; [done |]. by rewrite append_cons, IH. Qed.

Lemma TrimSpace_solid s : all_chars solid s = true -> strings_TrimSpace s = s.
Proof.
  intros Hs. pose proof (TrimSpace_padded EmptyString s EmptyString eq_refl Hs eq_refl) as H.
  change (EmptyString +:+ ?x) with x in H. by rewrite append_empty in H.
Qed.

Lemma digits_solid fuel : forall u acc,
  0 <= u -> all_chars solid acc = true ->
  all_chars solid (strconv.digits fuel u acc) = true.
Proof.
  induction fuel as [|fuel IH]; intros u acc Hu Hacc; [done |]. simpl.
  assert (all_chars solid (String (Str.chr (48 + u mod 10)) acc) = true) as Hc.
  { simpl. rewrite Hacc, andb_true_r. unfold solid.
    assert (0 <= u mod 10 < 10) as Hm by (apply Z.mod_pos_bound; lia).
    rewrite byte_chr by lia.
    apply andb_true_iff. split; [lia |].
    unfold unicode_IsSpace, utf8.between. lia. }
  destruct (u <? 10); [done |]. apply IH; [| done].
  apply Z.div_pos; lia.
Qed.

Lemma Itoa_solid i : all_chars solid (strconv.Itoa i) = true.
Proof.
  unfold strconv.Itoa. destruct (i <? 0) eqn:Hi.
  - apply Z.ltb_lt in Hi. cbn [all_chars]. apply andb_true_iff.
    split; [by vm_compute | apply digits_solid; [lia | done]].
  - apply Z.ltb_ge in Hi. by apply digits_solid.
Qed.

End Trim.

(** X9: [getPidFromFile] reads back a process id written in decimal, with
    or without ASCII white space around it (a trailing newline, say). *)
Theorem getPidFromFile_reads (path : string) (w : World) (f : File)
    (before after : string) (n : Z) :
  os.Stat path w = inr f ->
  data f = before +:+ strconv.Itoa n +:+ after ->
  all_chars blank before = true -> all_chars blank after = true ->
  strconv.MinInt <= n <= strconv.MaxInt ->
  getPidFromFile path w = n.
Proof.
  intros Hstat Hdata Ha Hb Hn. unfold getPidFromFile, os.ReadFile.
  rewrite Hstat, Hdata, TrimSpace_padded by (done || apply Itoa_solid).
  by rewrite Atoi_Itoa.
Qed.

(** X9 on a sample: a lock file that holds [4242] and a newline. *)
Lemma getPidFromFile_reads_sample :
  getPidFromFile "/tmp/lock"
    (Sample.put "/tmp/lock" (Str.line "4242") 0 Sample.fresh) = 4242.
Proof.
  apply (getPidFromFile_reads "/tmp/lock" _ (mkFile (Str.line "4242") 0)
           EmptyString (String Str.newline EmptyString) 4242);
    by vm_compute.
Defined.

Section Owner.

Context (sys : System).

Lemma wait_turns_pid n pidFile : forall w,
  pid (snd (wait_turns sys n pidFile w)) = pid w.
Proof.
  induction n as [|n IH]; intros w; simpl; [done |].
  destruct (os.IsNotExist _); [done |].
  destruct (_ =? -1); [unfold os.Remove; by case_bool_decide |].
  destruct (negb _); [unfold os.Remove; by case_bool_decide |].
  by rewrite IH.
Qed.

Lemma CreatePidFile_taken command w pidFile wl :
  CreatePidFile sys command w = (pidFile, wl) -> pidFile <> EmptyString ->
  exists wk,
    waitForPreviousCommand sys (lock_path command w) maxWaitPrevSec w = (true, wk) /\
    (lock_path command w ∉ denied wk) /\ pid wk = pid w /\
    pidFile = lock_path command w /\
    wl = os.WriteString pidFile (strconv.Itoa (pid w)) (snd (os.Create pidFile wk)).
Proof.
  rewrite CreatePidFile_unfold. cbv zeta. fold (lock_path command w).
  intros Hrun Hne.
  pose proof (wait_turns_pid (Z.to_nat maxWaitPrevSec) (lock_path command w) w) as Hpid.
  unfold waitForPreviousCommand in *.
  destruct (wait_turns _ _ _ _) as [[] wk]; [| by simplify_eq].
  simpl in Hpid. exists wk.
  destruct (decide (lock_path command w ∈ denied wk)) as [Hden | Hok].
  { rewrite Create_denied in Hrun by done. by simplify_eq. }
  rewrite Create_ok in Hrun by done. injection Hrun as <- <-.
  rewrite Create_ok by done. world_simpl. by rewrite Hpid.
Qed.

End Owner.

(** X10: the guard a call has taken names the caller: the lock file holds
    the caller's process id in decimal, [getPidFromFile] reads it back, and
    the lock is live for as long as the caller is. *)
Theorem own_lock_is_live (sys : System) (command : list string) (w wl : World)
    (pidFile : string) :
  CreatePidFile sys command w = (pidFile, wl) -> pidFile <> EmptyString ->
  0 <= pid w <= strconv.MaxInt ->
  (exists t, files wl !! pidFile = Some (mkFile (strconv.Itoa (pid w)) t)) /\
  getPidFromFile pidFile wl = pid w /\
  (pid w ∈ alive wl -> live_lock pidFile wl).
Proof.
  intros Hrun Hne Hpid.
  destruct (CreatePidFile_taken sys command w pidFile wl Hrun Hne)
    as (wk & _ & Hden & _ & -> & ->).
  set (p := lock_path command w) in *.
  rewrite Create_ok by done. cbn [snd].
  set (wc := with_disk _ wk).
  destruct (WriteString_lookup p (strconv.Itoa (pid w)) wc (clock wk)) as [[t Ht] _];
    [subst wc; world_simpl; by rewrite lookup_insert_eq |].
  set (wl := os.WriteString _ _ wc) in *.
  assert (os.Stat p wl = inr (mkFile (strconv.Itoa (pid w)) t)) as Hstat.
  { rewrite Stat_ok, Ht; [done |].
    subst wl. by destruct (WriteString_frame p (strconv.Itoa (pid w)) wc)
      as (_ & _ & _ & _ & _ & ->). }
  assert (strconv.MinInt <= pid w <= strconv.MaxInt) as Hrange
    by (unfold strconv.MinInt, strconv.MaxInt in *; lia).
  assert (strings_TrimSpace (strconv.Itoa (pid w)) = strconv.Itoa (pid w)) as Htrim.
    by (apply TrimSpace_solid, Itoa_solid).
  split; [by exists t |]. split.
  - unfold getPidFromFile, os.ReadFile. rewrite Hstat. cbn [data].
    by rewrite Htrim, Atoi_Itoa.
  - intros Halive. exists (mkFile (strconv.Itoa (pid w)) t), (pid w).
    split; [done |]. cbn [data]. rewrite Htrim, Atoi_Itoa by done.
    split; [done |]. split; [lia | done].
Qed.

(** X10 on a sample: process 100 takes the guard of [date] on a fresh
    machine, and the lock then reads 100. *)
Lemma own_lock_is_live_sample :
  getPidFromFile (Sample.lock_of ["date"])
    (snd (CreatePidFile Stale.sys ["date"] Sample.fresh)) = 100.
Proof.
  destruct (own_lock_is_live Stale.sys ["date"] Sample.fresh
              (snd (CreatePidFile Stale.sys ["date"] Sample.fresh))
              (Sample.lock_of ["date"]))
    as (_ & Hread & _); [by vm_compute | by vm_compute | by vm_compute |].
  exact Hread.
Defined.

(** ** The guard at its first poll and after a wait *)

Section Polls.

Context (sys : System).

Lemma numbered_turn pidFile w :
  numbered_lock pidFile w ->
  os.IsNotExist (os.Stat pidFile w) = false /\
  (getPidFromFile pidFile w =? -1) = false /\
  isProcessRunning (getPidFromFile pidFile w) w = true.
Proof.
  intros (f & p & Hstat & Hpid & Hp).
  unfold getPidFromFile, os.ReadFile. rewrite Hstat, Hpid. simpl.
  split; [done |]. split; [lia | apply isProcessRunning_true].
Qed.

Lemma wait_turns_numbered n pidFile : forall w,
  (forall k, (k < n)%nat -> numbered_lock pidFile (Nat.iter k (time_Sleep sys Second) w)) ->
  wait_turns sys n pidFile w = (false, Nat.iter n (time_Sleep sys Second) w).
Proof.
  induction n as [|n IH]; intros w Hlock; [done |]. cbn [wait_turns].
  destruct (numbered_turn pidFile w (Hlock 0%nat ltac:(lia))) as (-> & -> & ->).
  cbn [negb]. change (1 * Second) with Second.
  rewrite IH, <- Nat.iter_succ_r; [done |].
  intros k Hk. rewrite <- Nat.iter_succ_r. apply Hlock. lia.
Qed.

Lemma wait_unreadable n pidFile w :
  os.IsNotExist (os.Stat pidFile w) = false -> getPidFromFile pidFile w = -1 ->
  wait_turns sys (S n) pidFile w = (false, os.Remove pidFile w).
Proof. intros Hthere Hpid. simpl. by rewrite Hthere, Hpid. Qed.

Lemma wait_then_free k : forall n pidFile w,
  (k < n)%nat ->
  (forall j, (j < k)%nat -> numbered_lock pidFile (Nat.iter j (time_Sleep sys Second) w)) ->
  os.IsNotExist (os.Stat pidFile (Nat.iter k (time_Sleep sys Second) w)) = true ->
  wait_turns sys n pidFile w = (true, Nat.iter k (time_Sleep sys Second) w).
Proof.
  induction k as [|k IH]; intros n pidFile w Hk Hlock Hfree.
  - destruct n; [lia |]. simpl in *. by rewrite Hfree.
  - destruct n; [lia |]. cbn [wait_turns].
    destruct (numbered_turn pidFile w (Hlock 0%nat ltac:(lia))) as (-> & -> & ->).
    cbn [negb]. change (1 * Second) with Second.
    rewrite (IH n pidFile (time_Sleep sys Second w)); [| lia | |].
    + by rewrite <- Nat.iter_succ_r.
    + intros j Hj. rewrite <- Nat.iter_succ_r. apply Hlock. lia.
    + by rewrite <- Nat.iter_succ_r.
Qed.

End Polls.

(** X11: a lock file that is there and from which no process id can be read
    (the file cannot be opened, or its content is not a number, or is the
    number -1) makes the call fail at once, without a sleep: code 2 and the
    timeout message; nothing is printed or started, the lock file is removed
    when it can be, and no other file changes. *)
Theorem unreadable_lock_fails_at_once (sys : System) (command : list string)
    (cacheTimeout : float64) (cacheOnError cacheOnAbort : bool) (w : World) :
  let p := lock_path command w in
  os.IsNotExist (os.Stat p w) = false -> getPidFromFile p w = -1 ->
  exists w1,
    RunCached sys command cacheTimeout cacheOnError cacheOnAbort w = Returns 2 w1 /\
    stderr w1 = stderr w +:+ Str.line "Timeout waiting for previous command to finish" /\
    stdout w1 = stdout w /\ clock w1 = clock w /\ spawned w1 = spawned w /\
    (p ∉ denied w -> files w1 !! p = None) /\
    (forall q, q <> p -> files w1 !! q = files w !! q).
Proof.
  intros p Hthere Hpid. unfold RunCached.
  rewrite CreatePidFile_unfold. cbv zeta. fold (lock_path command w). fold p.
  unfold waitForPreviousCommand.
  change (Z.to_nat maxWaitPrevSec) with 5%nat.
  rewrite (wait_unreadable sys 4 p w Hthere Hpid).
  change (String.eqb EmptyString EmptyString) with true. cbv iota.
  eexists. split; [reflexivity |].
  destruct (Remove_frame p w) as (Hc & Ho & He & Hs & _).
  world_simpl. rewrite Hc, Ho, He, Hs.
  repeat (split; [done |]).
  split.
  - intros Hp. by apply Remove_lookup.
  - intros q Hq. unfold os.Remove. case_bool_decide; [done |].
    world_simpl. by rewrite lookup_delete_ne.
Qed.

(** X11 on a sample: the lock of [date] is an empty file. *)
Lemma unreadable_lock_fails_at_once_sample :
  exists w1,
    RunCached Stale.sys Stale.command 20 false false Torn.start = Returns 2 w1 /\
    clock w1 = clock Torn.start /\
    files w1 !! Sample.lock_of Stale.command = None.
Proof.
  destruct (unreadable_lock_fails_at_once Stale.sys Stale.command 20 false false Torn.start)
    as (w1 & Hrun & _ & _ & Hclock & _ & Hgone & _);
    [by vm_compute | by vm_compute |].
  exists w1. split; [exact Hrun |]. split; [exact Hclock |].
  apply Hgone. vm_compute. set_solver.
Defined.

(** X12: a call that finds a lock with a process id in it at its first [k]
    polls, one second apart, and no lock at the next, with [k] below five,
    takes the guard after exactly [k] seconds and writes its own process id
    into the lock file. *)
Theorem guard_taken_after_wait (sys : System) (command : list string) (w : World)
    (k : nat) :
  let p := lock_path command w in
  let wk := Nat.iter k (time_Sleep sys Second) w in
  (k < 5)%nat ->
  (forall j, (j < k)%nat -> numbered_lock p (Nat.iter j (time_Sleep sys Second) w)) ->
  files wk !! p = None -> p ∉ denied wk ->
  fst (CreatePidFile sys command w) = p /\
  clock (snd (CreatePidFile sys command w)) = clock w + Z.of_nat k * Second /\
  exists t, files (snd (CreatePidFile sys command w)) !! p
            = Some (mkFile (strconv.Itoa (pid w)) t).
Proof.
  intros p wk Hk Hlock Hfree Hden.
  rewrite CreatePidFile_unfold. cbv zeta. fold (lock_path command w). fold p.
  unfold waitForPreviousCommand. change (Z.to_nat maxWaitPrevSec) with 5%nat.
  assert (os.IsNotExist (os.Stat p wk) = true) as Hnone
    by (by rewrite Stat_ok, Hfree by done).
  rewrite (wait_then_free sys k 5 p w Hk Hlock Hnone).
  fold wk. rewrite Create_ok by done. cbn [fst snd].
  set (wc := with_disk _ wk).
  destruct (iter_Sleep_streams sys k w) as (_ & _ & _ & _ & Hpid). fold wk in Hpid.
  change (pid wc) with (pid wk).
  destruct (WriteString_frame p (strconv.Itoa (pid wk)) wc) as (-> & _).
  destruct (WriteString_lookup p (strconv.Itoa (pid wk)) wc (clock wk)) as [[t Ht] _];
    [subst wc; world_simpl; by rewrite lookup_insert_eq |].
  split; [done |]. split.
  - subst wc wk. world_simpl. apply iter_Sleep_clock.
  - exists t. by rewrite <- Hpid.
Qed.

(** X12 on a sample: the lock of [date] is given up during the second
    second of waiting. *)
Lemma guard_taken_after_wait_sample :
  clock (snd (CreatePidFile Handover.sys Handover.command Handover.held)) = 2 * Second.
Proof.
  destruct (guard_taken_after_wait Handover.sys Handover.command Handover.held 2)
    as (_ & Hclock & _).
  - lia.
  - intros j Hj.
    assert (j = 0 \/ j = 1)%nat as [-> | ->] by lia;
      (exists (mkFile "7" 0), 7; split; [by vm_compute |]; split; [by vm_compute | lia]).
  - by vm_compute.
  - vm_compute. set_solver.
  - exact Hclock.
Defined.

(** X14: a lock file with a process id in it blocks the call whether or not
    that process exists.  [isProcessRunning] answers true for every process
    id, so when the lock can be read and holds a number other than -1 at
    each of the five polls, the call sleeps five seconds and ends with code 2
    and the timeout message; it removes nothing and starts nothing. *)
Theorem numbered_lock_blocks (sys : System) (command : list string)
    (cacheTimeout : float64) (cacheOnError cacheOnAbort : bool) (w : World) :
  (forall pid w', isProcessRunning pid w' = true) /\
  ((forall k, (k < 5)%nat ->
      numbered_lock (lock_path command w) (Nat.iter k (time_Sleep sys Second) w)) ->
   exists w1,
     RunCached sys command cacheTimeout cacheOnError cacheOnAbort w = Returns 2 w1 /\
     stderr w1 = stderr w +:+ Str.line "Timeout waiting for previous command to finish" /\
     stdout w1 = stdout w /\ spawned w1 = spawned w /\
     files w1 = files (Nat.iter 5 (time_Sleep sys Second) w) /\
     clock w1 = clock w + 5 * Second).
Proof.
  split; [apply isProcessRunning_true |].
  intros Hlock. unfold RunCached. rewrite CreatePidFile_unfold. cbv zeta.
  fold (lock_path command w).
  unfold waitForPreviousCommand. change (Z.to_nat maxWaitPrevSec) with 5%nat.
  rewrite (wait_turns_numbered sys 5 _ w Hlock).
  change (String.eqb EmptyString EmptyString) with true. cbv iota.
  eexists. split; [reflexivity |].
  destruct (iter_Sleep_streams sys 5 w) as (Hout & Herr & Hsp & _).
  world_simpl. by rewrite Herr, Hout, Hsp, iter_Sleep_clock.
Qed.

(** X14 on a sample: the lock of [date] names process 4242, which does not
    exist. *)
Lemma numbered_lock_blocks_sample :
  exists w1,
    RunCached Stale.sys Stale.command 20 false false Stale.start = Returns 2 w1 /\
    clock w1 = clock Stale.start + 5 * Second.
Proof.
  destruct (proj2 (numbered_lock_blocks Stale.sys Stale.command 20 false false Stale.start))
    as (w1 & Hrun & _ & _ & _ & _ & Hclock).
  - intros k Hk. exists (mkFile "4242" 0), 4242.
    do 5 (destruct k as [|k]; [split; [by vm_compute |]; split; [by vm_compute | lia] |]).
    lia.
  - exists w1. split; [exact Hrun | exact Hclock].
Defined.

(** ** The two sinks of the output *)

Section Tee.

Context (sys : System).

Lemma wait_turns_verbose n pidFile : forall w,
  verbose (snd (wait_turns sys n pidFile w)) = verbose w.
Proof.
  induction n as [|n IH]; intros w; simpl; [done |].
  destruct (os.IsNotExist _); [done |].
  destruct (_ =? -1); [unfold os.Remove; by case_bool_decide |].
  destruct (negb _); [unfold os.Remove; by case_bool_decide |].
  by rewrite IH.
Qed.

Lemma CreatePidFile_verbose command w :
  verbose (snd (CreatePidFile sys command w)) = verbose w.
Proof.
  rewrite CreatePidFile_unfold. cbv zeta. unfold waitForPreviousCommand.
  pose proof (wait_turns_verbose (Z.to_nat maxWaitPrevSec)
                (filepath_Join (getCacheDir w) (GenerateCommandHash command +:+ ".pid")) w)
    as Hv.
  destruct (wait_turns _ _ _ _) as [[] wk]; [| done].
  unfold os.Create. case_bool_decide; [done |].
  cbn [snd] in *. by rewrite WriteString_verbose.
Qed.

Lemma ExecuteCommand_stdout command cache w script :
  ConstructBashCommand command = inl script ->
  OutputCache cache ∉ denied w ->
  exists child code w1,
    ExecuteCommand sys command cache w = Returns code w1 /\
    spawned w1 = spawned w ++ [(["bash"; "-i"; "-c"; script], child)] /\
    stdout w1 = match child with
                | Some r => stdout (report_copy r (os.print (piped r) w))
                | None => stdout w
                end.
Proof.
  intros Hparse Hblob. unfold ExecuteCommand.
  rewrite Hparse, (Create_ok _ _ Hblob).
  set (argv := ["bash"; "-i"; "-c"; script]). set (wc := with_disk _ w).
  exists (exec sys argv wc).
  destruct (exec sys argv wc) as [r |]; [| by eexists _, _].
  cbv zeta.
  set (wr := report_copy r _).
  assert (spawned wr = spawned w ++ [(argv, Some r)]
          /\ stdout wr = stdout (report_copy r (os.print (piped r) w)))
    as [Hwr Hso].
  { subst wr.
    match goal with |- context [os.WriteString ?p ?s ?x] =>
      destruct (report_copy_frame r (os.WriteString p s x)) as (_ & _ & -> & _ & _ & _ & _ & ->);
      destruct (WriteString_frame p s x) as (_ & -> & _ & -> & _) end.
    by destruct (report_copy_frame r (os.print (piped r) w)) as (_ & _ & _ & _ & _ & _ & _ & ->). }
  destruct (waited r) as [| st |]; [by eexists _, _ | | by eexists _, _].
  unfold os.Create. case_bool_decide; [by eexists _, _ |].
  eexists _, _. split; [done |].
  match goal with |- context [os.WriteString ?p ?s ?x] =>
    destruct (WriteString_frame p s x) as (_ & -> & _ & -> & _) end.
  done.
Qed.

Lemma ExecuteCommand_blob command cacheTimeout w0 w code w1 argv r :
  let cc := NewCommandCache command cacheTimeout w0 in
  ExecuteCommand sys command cc w = Returns code w1 ->
  spawned w1 = spawned w ++ [(argv, Some r)] ->
  stdout w1 = stdout (report_copy r (os.print (piped r) w)) /\
  exists f, files w1 !! OutputCache cc = Some f /\ data f = piped r.
Proof.
  intros cc Hrun Hlog.
  destruct (paths_distinct command cacheTimeout w0) as (Hde & _). fold cc in Hde.
  destruct (ExecuteCommand_ran sys command cc w code w1 argv r Hrun Hlog)
    as ((script & Hparse & ->) & Hblob & Hend).
  split.
  - destruct (ExecuteCommand_stdout command cc w script Hparse Hblob)
      as (child & code' & w1' & Hrun' & Hlog' & Hout).
    rewrite Hrun in Hrun'. injection Hrun' as <- <-.
    rewrite Hlog in Hlog'. by apply app_inj_tail in Hlog' as [_ [= <-]].
  - destruct (after_copy_facts cc ["bash"; "-i"; "-c"; script] r w Hblob)
      as (_ & _ & _ & _ & _ & _ & Hf & _).
    destruct (waited r) as [| st |].
    + by destruct Hend as [_ ->].
    + case_bool_decide as Hexit.
      * destruct Hend as [_ ->]. done.
      * destruct Hend as [_ ->].
        by destruct (after_failure_facts cc ["bash"; "-i"; "-c"; script] r code w
                       Hblob Hexit Hde) as (_ & _ & _ & _ & Hg & _).
    + by destruct Hend as [_ ->].
Qed.

End Tee.

(** X13: an invocation that ran the command hands what the copy loop read
    from the child's standard output to both sinks.  Standard output gains,
    after the line "Executing command" of the verbose mode, those bytes, and
    after them the report of the error the copy ended with, if it ended with
    one; the output blob, whenever the invocation leaves one, which it does
    after code 0 and under "cache on error", holds those bytes and nothing
    else. *)
Theorem output_reaches_both_sinks (sys : System) (command : list string)
    (cacheTimeout : float64) (cacheOnError cacheOnAbort : bool) (w w1 : World) (code : Z)
    (argv : list string) (r : Run) :
  let cc := NewCommandCache command cacheTimeout w in
  RunCached sys command cacheTimeout cacheOnError cacheOnAbort w = Returns code w1 ->
  spawned w1 = spawned w ++ [(argv, Some r)] ->
  stdout w1 = ((if verbose w then stdout w +:+ Str.line "Executing command" else stdout w)
               +:+ piped r)
              +:+ match copyError r with
                  | Some e => Str.line ("Error copying to writers: " +:+ e)
                  | None => EmptyString
                  end /\
  (forall g, files w1 !! OutputCache cc = Some g -> data g = piped r) /\
  (code = 0 \/ cacheOnError = true ->
   exists g, files w1 !! OutputCache cc = Some g /\ data g = piped r).
Proof.
  intros cc Hrun Hlog.
  destruct (paths_distinct command cacheTimeout w) as (_ & Hdl & _). fold cc in Hdl.
  destruct (RunCached_executed sys _ _ _ _ _ _ _ _ _ Hrun Hlog)
    as (_ & Hlden & _ & _ & w1' & Hexec & Hlog' & ->).
  fold cc in Hexec |- *. set (p := lock_path command w) in *.
  destruct (CreatePidFile_spec sys command w _ _ (surjective_pairing _))
    as (_ & _ & Hout & _).
  pose proof (CreatePidFile_verbose sys command w) as Hverb.
  set (wl := snd (CreatePidFile sys command w)) in *.
  set (wv := if verbose wl then os.print _ wl else wl) in *.
  assert (denied wv = denied wl) as Hvd by (subst wv; by destruct (verbose wl)).
  assert (stdout wv = if verbose w then stdout w +:+ Str.line "Executing command"
                      else stdout w) as Hvo
    by (subst wv; rewrite <- Hverb, <- Hout; by destruct (verbose wl)).
  pose proof (ExecuteCommand_denied sys command cc wv) as Hden.
  rewrite Hexec in Hden. cbn [world_of] in Hden.
  destruct (ExecuteCommand_blob sys command cacheTimeout w wv code w1' argv r Hexec Hlog')
    as (Hstdout & f & Hf & Hfd). fold cc in Hf.
  set (wi := if negb (code =? 0) && negb cacheOnError then Invalidate cc w1' else w1').
  assert (denied wi = denied w1' /\ stdout wi = stdout w1') as (Hid & Hio).
  { subst wi. destruct (negb (code =? 0) && negb cacheOnError); [| done].
    unfold Invalidate. by destruct (Remove_frame (OutputCache cc) w1')
      as (_ & -> & _ & _ & _ & ->). }
  destruct (Remove_frame p wi) as (_ & Hro & _).
  destruct (Remove_lookup p wi) as [_ Hkept]; [by rewrite Hid, Hden, Hvd |].
  rewrite Hro, Hio, Hstdout, !Hkept by done.
  split.
  { destruct (report_copy_frame r (os.print (piped r) wv))
      as (_ & _ & _ & _ & _ & _ & _ & ->).
    world_simpl. rewrite Hvo. destruct (copyError r); [done |].
    by rewrite append_empty. }
  assert (forall g, files wi !! OutputCache cc = Some g -> data g = piped r) as Hany.
  { intros g. subst wi. destruct (negb (code =? 0) && negb cacheOnError).
    - unfold Invalidate, os.Remove. case_bool_decide; world_simpl.
      + rewrite Hf. by intros [= <-].
      + by rewrite lookup_delete_eq.
    - rewrite Hf. by intros [= <-]. }
  split; [done |].
  intros Hkeep. exists f. split; [| done]. subst wi.
  destruct Hkeep as [-> | ->]; [done |]. by rewrite andb_false_r.
Qed.

(** X13 on a sample: [report] on a fresh machine. *)
Lemma output_reaches_both_sinks_sample :
  stdout (world_of Noisy.first) = Str.line "result".
Proof.
  destruct (output_reaches_both_sinks Noisy.sys Noisy.command 20 false false
              Sample.fresh (world_of Noisy.first) 0 ["bash"; "-i"; "-c"; "report"]
              (mkRun (Str.line "result") (Str.line "warning") Second WaitOk None))
    as (Hout & _); [by vm_compute | by vm_compute |].
  exact Hout.
Defined.

(** ** From an execution to the replay *)

(** X15: what a successful execution stores is what the next call inside
    the window serves.  An invocation that ran the command and saw it exit
    with 0 returns 0, leaves the output of the child in the blob and leaves
    the exit record as it was when the guard was taken.  A later call that
    finds the blob no older than its timeout prints that output again
    without starting anything, and returns the number of that exit record,
    or 0 when there is no readable exit record. *)
Theorem success_is_replayed (sys : System) (command : list string)
    (cacheTimeout : float64) (cacheOnError cacheOnAbort : bool) (w w1 : World) (code : Z)
    (argv : list string) (r : Run) :
  RunCached sys command cacheTimeout cacheOnError cacheOnAbort w = Returns code w1 ->
  spawned w1 = spawned w ++ [(argv, Some r)] ->
  waited r = WaitOk ->
  let cc := NewCommandCache command cacheTimeout w in
  let wl := snd (CreatePidFile sys command w) in
  code = 0 /\
  files w1 !! ExitFile cc = files wl !! ExitFile cc /\
  exists blob,
    files w1 !! OutputCache cc = Some blob /\ data blob = piped r /\
    forall (t : Z) (timeout' : float64) (e' a' : bool),
      float64_le (seconds_since (modTime blob) (with_clock t w1)) timeout' = true ->
      exists w2,
        RunCached sys command timeout' e' a' (with_clock t w1)
        = Returns (fst (strconv.Atoi (readFileOrDefault (ExitFile cc) "0" wl))) w2 /\
        stdout w2 = (if verbose w1
                     then stdout w1 +:+ Str.line "Returning cached result"
                     else stdout w1) +:+ piped r /\
        spawned w2 = spawned w1.
Proof.
  intros Hrun Hlog Hwait cc wl.
  destruct (paths_distinct command cacheTimeout w) as (Hde & Hdl & Hel & _).
  fold cc in Hde, Hdl, Hel.
  destruct (RunCached_executed sys _ _ _ _ _ _ _ _ _ Hrun Hlog)
    as (_ & Hlden & Htmp & _ & w1' & Hexec & Hlog' & ->).
  fold cc wl in Hexec, Hlden, Htmp |- *. set (p := lock_path command w) in *.
  set (wv := if verbose wl then os.print _ wl else wl) in *.
  assert (denied wv = denied wl /\ files wv = files wl /\ tmpDir wv = tmpDir wl)
    as (Hvd & Hvf & Hvt) by (subst wv; by destruct (verbose wl)).
  destruct (ExecuteCommand_ran sys command cc wv code w1' argv r Hexec Hlog')
    as (_ & Hblob & Hend).
  rewrite Hwait in Hend. destruct Hend as [-> ->]. cbn [Z.eqb negb andb].
  destruct (after_copy_facts cc argv r wv Hblob)
    as (Hat & Had & _ & _ & _ & _ & (f & Hf & Hfd) & Hrest).
  set (wa := after_copy cc argv r wv) in *.
  destruct (Remove_frame p wa) as (_ & _ & _ & _ & Hrt & Hrd).
  destruct (Remove_lookup p wa) as [Hgone Hkept]; [by rewrite Had, Hvd |].
  set (w1 := os.Remove p wa) in *.
  split; [done |].
  assert (files w1 !! ExitFile cc = files wl !! ExitFile cc) as Hexit
    by (by rewrite Hkept, Hrest, Hvf).
  split; [done |].
  exists f. split; [by rewrite Hkept |]. split; [done |].
  intros t timeout' e' a' Hfresh.
  assert (tmpDir (with_clock t w1) = tmpDir w) as Htmp'
    by (world_simpl; by rewrite Hrt, Hat, Hvt).
  assert (lock_path command (with_clock t w1) = p) as Hp
    by (unfold lock_path, getCacheDir; by rewrite Htmp').
  assert (OutputCache (NewCommandCache command timeout' (with_clock t w1)) = OutputCache cc
          /\ ExitFile (NewCommandCache command timeout' (with_clock t w1)) = ExitFile cc)
    as [Hout' Hexit']
    by (unfold cc, NewCommandCache, getCacheDir; by rewrite Htmp').
  destruct (RunCached_replayed sys command timeout' e' a' (with_clock t w1) f)
    as (code2 & w2 & Hrun2 & Hcode2 & _ & Hout2 & _ & Hsp2 & _).
  - by rewrite Hp.
  - rewrite Hp. world_simpl. by rewrite Hrd, Had, Hvd.
  - rewrite Hout'. world_simpl. by rewrite Hrd, Had.
  - rewrite Hout'. world_simpl. by rewrite Hkept.
  - done.
  - exists w2. rewrite Hrun2, Hcode2, Hexit', Hout2, Hfd.
    split; [| done]. do 3 f_equal.
    unfold readFileOrDefault, os.ReadFile.
    rewrite (Stat_agree (ExitFile cc) (with_clock t w1) wl); [done | |].
    + world_simpl. by rewrite Hrd, Had, Hvd.
    + done.
Qed.

(** X15 on a sample: the service that is up again.  The second call runs
    [probe] with success over the exit record 3 of the first, and the third,
    five seconds later, serves the new output with code 3. *)
Lemma success_is_replayed_sample :
  exists w3, Recovering.third = Returns 3 w3 /\
             spawned w3 = spawned (world_of Recovering.second).
Proof.
  destruct (success_is_replayed Recovering.sys Recovering.command 20 false false
              (with_clock (100 * Second) (world_of Recovering.first))
              (world_of Recovering.second) 0
              ["bash"; "-i"; "-c"; "probe"]
              (mkRun (Str.line "up") EmptyString Second WaitOk None))
    as (_ & _ & blob & Hblob & _ & Hnext);
    [by vm_compute | by vm_compute | done |].
  vm_compute in Hblob. injection Hblob as <-.
  destruct (Hnext (105 * Second) 20 false false) as (w3 & Hrun & _ & Hsp);
    [by vm_compute |].
  exists w3. split; [| exact Hsp].
  unfold Recovering.third. rewrite Hrun. clear. vm_compute. reflexivity.
Defined.
